(** * Sample-size determination: the calculator core

    A shallow embedding of [calculator_core.py] (class
    [ESSSampleSizeCalculator] and the dataclass [SurveyParameters]) and the
    properties its specification states about it.

    Conventions of the embedding.

    - A Python [float] is an exact rational ([Q]): the arithmetic operators
      are the rational ones and the rounding of binary floating point is not
      modelled.  Decimal literals denote the rationals they spell.  Equality
      of floats is [Qeq] ([==]).
    - A Python [int] is a [Z].
    - An exception is a value of [exn]; a method that can raise returns
      [result A].  Statements are sequenced by the bind of that monad, in
      the order the source executes them.
    - The dictionary [confidence_levels] is a [gmap Z Q]; the list of survey
      profiles is a [list]; the dictionary returned by [calculate_sample]
      has a fixed set of keys and is a record.
    - [statsmodels] is not part of the repository: the power solver is a
      section variable.
    - Where a statement depends on the rounding itself, the functions it
      is about are given once more over binary64 numbers, in the module
      [Binary64]; the inputs at which a statement on exact arithmetic
      fails for the floats of the interpreter are evaluated there. *)

From Stdlib Require Import ZArith QArith Qround Qabs Lqa Lia.
From Stdlib Require PrimFloat.
From stdpp Require Import base gmap strings list.

Local Open Scope Z_scope.
Local Open Scope Q_scope.

(** ** Exceptions and the error monad *)

Inductive exn : Type :=
| StopIteration      (* [next] on an exhausted generator *)
| KeyError           (* subscript of a dictionary with a missing key *)
| ZeroDivisionError  (* [/] with a zero divisor *)
| SolverError.       (* anything raised inside the power solver *)

Inductive result (A : Type) : Type :=
| Ok (a : A)
| Raise (e : exn).

Arguments Ok {A} a.
Arguments Raise {A} e.

Definition bind {A B : Type} (m : result A) (k : A -> result B) : result B :=
  match m with
  | Ok a => k a
  | Raise e => Raise e
  end.

Notation "'let*' x ':=' m 'in' k" := (bind m (fun x => k))
  (at level 10, x name, m at level 100, k at level 200,
   format "'[v' 'let*'  x  ':='  m  'in' '/' k ']'").

(** ** Python primitives used by the calculator *)

(** Truth value of a float: every float but zero is true. *)
Definition truthy (q : Q) : bool := negb (Qeq_bool q 0).

(** Truth value of an int. *)
Definition truthy_int (z : Z) : bool := negb (z =? 0)%Z.

(** [x or d] for an [Optional[float]] [x]: [None] and [0.0] are both false. *)
Definition or_default (x : option Q) (d : Q) : Q :=
  match x with
  | Some q => if truthy q then q else d
  | None => d
  end.

(** [x or d] for an [int] [x]. *)
Definition or_default_int (x : Z) (d : Z) : Z :=
  if truthy_int x then x else d.

(** True division: raises on a zero divisor. *)
Definition py_div (a b : Q) : result Q :=
  if Qeq_bool b 0 then Raise ZeroDivisionError else Ok (a / b).

(** [math.ceil]. *)
Definition ceil (q : Q) : Z := Qceiling q.

(** Rounding to the nearest integer, ties to the even one. *)
Definition round_half_even (q : Q) : Z :=
  let f := Qfloor q in
  match Qcompare (q - inject_Z f) (1 # 2) with
  | Lt => f
  | Gt => (f + 1)%Z
  | Eq => if Z.even f then f else (f + 1)%Z
  end.

(** [round(q, 3)]. *)
Definition round3 (q : Q) : Q := inject_Z (round_half_even (q * 1000)) / 1000.

(** ** Data model *)

Record SurveyParameters : Type := {
  survey_type : string;
  population_size : Z;
  confidence_level : Z;       (* default 95 *)
  margin_error : Q;           (* default 0.05 *)
  avg_cluster_size : Z;       (* default 20 *)
  icc : option Q;             (* default None *)
  expected_prevalence : Q;    (* default 0.5 *)
  non_response_rate : Q;      (* default 0.1 *)
  effect_size : option Q;     (* default None *)
  alpha : Q;                  (* default 0.05 *)
  power : Q                   (* default 0.8 *)
}.

(** The constructor of the dataclass with its defaults: only
    [survey_type] and [population_size] are required. *)
Definition default_parameters (ty : string) (N : Z) : SurveyParameters := {|
  survey_type := ty;
  population_size := N;
  confidence_level := 95;
  margin_error := 0.05;
  avg_cluster_size := 20;
  icc := None;
  expected_prevalence := 0.5;
  non_response_rate := 0.1;
  effect_size := None;
  alpha := 0.05;
  power := 0.8
|}.

(** A survey profile: one entry of [survey_profiles].  The key ['id'] is
    the field [profile_id]. *)
Record SurveyProfile : Type := {
  profile_id : string;
  name : string;
  default_icc : Q;
  default_cluster_size : Z;
  description : string
}.

(** The dictionary [calculate_sample] returns.  Its keys ['icc'] and
    ['cluster_size'] are the fields [icc_used] and [cluster_size]. *)
Record SampleSizeResult : Type := {
  base_sample_size : Z;
  design_effect : Q;
  icc_used : Q;
  cluster_size : Z;
  adjusted_sample_size : Z;
  final_sample_size : Z;
  power_sample_size : option Z;
  effective_sample_size : Z
}.

(** The calculator object: the two attributes [__init__] sets. *)
Record ESSSampleSizeCalculator : Type := {
  confidence_levels : gmap Z Q;
  survey_profiles : list SurveyProfile
}.

(** ** The calculator *)

(** The profiles used when [assets/survey_types.json] cannot be read. *)
Definition fallback_profiles : list SurveyProfile :=
  [ {| profile_id := "annual_agri";
       name := "Annual Agriculture Survey";
       default_icc := 0.15;
       default_cluster_size := 25;
       description := "Crop area and production estimates" |} ].

(** [load_survey_profiles]: [assets] is the parsed content of the JSON
    file, [None] when opening or parsing it raises. *)
Definition load_survey_profiles (assets : option (list SurveyProfile))
  : list SurveyProfile :=
  match assets with
  | Some profiles => profiles
  | None => fallback_profiles
  end.

(** [__init__]. *)
Definition init (assets : option (list SurveyProfile))
  : ESSSampleSizeCalculator := {|
  confidence_levels :=
    {[ 90%Z := 1.645; 95%Z := 1.96; 99%Z := 2.576 ]};
  survey_profiles := load_survey_profiles assets
|}.

(** [calculate_deff]: [avg_cluster_size - 1] is an integer subtraction,
    its product with [icc] a float. *)
Definition calculate_deff (avg_cluster_size : Z) (icc : Q) : Q :=
  1 + inject_Z (avg_cluster_size - 1) * icc.

(** [_calculate_base_sample]. *)
Definition _calculate_base_sample (self : ESSSampleSizeCalculator)
    (params : SurveyParameters) : result Q :=
  let* Z := match confidence_levels self !! confidence_level params with
             | Some z => Ok z
             | None => Raise KeyError
             end in
  py_div (Z * Z * expected_prevalence params
          * (1 - expected_prevalence params))
         (margin_error params * margin_error params).

(** [_apply_fpc]. *)
Definition _apply_fpc (n : Q) (N : Z) : result Q :=
  if truthy_int N then
    let* t := py_div (n - 1) (inject_Z N) in
    py_div n (1 + t)
  else Ok n.

(** The non-response inflation, the expression
    [n_fpc / (1 - params.non_response_rate)] of [calculate_sample]. *)
Definition non_response_inflation (n_fpc r : Q) : result Q :=
  py_div n_fpc (1 - r).

(** [next(p for p in self.survey_profiles if p['id'] == survey_type)]. *)
Definition next_profile (self : ESSSampleSizeCalculator) (ty : string)
  : result SurveyProfile :=
  match List.find (fun p => String.eqb (profile_id p) ty)
                  (survey_profiles self) with
  | Some p => Ok p
  | None => Raise StopIteration
  end.

(** [get_survey_types]: the identifier, name and description of every
    profile, in the order of the registry. *)
Definition get_survey_types (self : ESSSampleSizeCalculator)
  : list (string * string * string) :=
  (fun p => (profile_id p, name p, description p)) <$> survey_profiles self.

(** [math.ceil(power_sample) if power_sample else None]. *)
Definition ceil_power (power_sample : option Q) : option Z :=
  match power_sample with
  | Some v => if truthy v then Some (ceil v) else None
  | None => None
  end.

Section PowerSolver.

(** [TTestIndPower().solve_power(effect_size, nobs1=None, alpha, power)]. *)
Variable solve_power : Q -> Q -> Q -> result Q.

(** [calculate_power]. *)
Definition calculate_power (effect_size alpha power : Q) : result Q :=
  solve_power effect_size alpha power.

(** The power analysis of [calculate_sample]: [None] unless
    [params.effect_size] is true. *)
Definition power_analysis (params : SurveyParameters)
  : result (option Q) :=
  match effect_size params with
  | Some d =>
      if truthy d then
        let* v := calculate_power d (alpha params) (power params) in
        Ok (Some v)
      else Ok None
  | None => Ok None
  end.

(** [calculate_sample]. *)
Definition calculate_sample (self : ESSSampleSizeCalculator)
    (params : SurveyParameters) : result SampleSizeResult :=
  let* profile := next_profile self (survey_type params) in
  let icc := or_default (icc params) (default_icc profile) in
  let b := or_default_int (avg_cluster_size params)
                          (default_cluster_size profile) in
  let deff := calculate_deff b icc in
  let* n0 := _calculate_base_sample self params in
  let n_design := n0 * deff in
  let* n_fpc := _apply_fpc n_design (population_size params) in
  let* final_n := non_response_inflation n_fpc (non_response_rate params) in
  let* power_sample := power_analysis params in
  Ok {| base_sample_size := ceil n0;
        design_effect := round3 deff;
        icc_used := round3 icc;
        cluster_size := b;
        adjusted_sample_size := ceil n_design;
        final_sample_size := ceil final_n;
        power_sample_size := ceil_power power_sample;
        effective_sample_size := ceil n0 |}.

End PowerSolver.

(** ** Inputs of the worked examples *)

(** A solver for the closed examples: a one-line table with the reference
    value of the two-sample t-test for effect size 0.5, significance 0.05
    and power 0.8, and no answer elsewhere. *)
Definition table_solver (d a p : Q) : result Q :=
  if Qeq_bool d 0.5 && Qeq_bool a 0.05 && Qeq_bool p 0.8
  then Ok 63.77 else Raise SolverError.

(** The calculator when the JSON file is missing. *)
Definition default_calculator : ESSSampleSizeCalculator := init None.

(** The scenario of the specification: 15000 enumeration areas, 95 %
    confidence, 5 % margin, prevalence 0.5, clusters of 25, ICC 0.15 and
    10 % non-response. *)
Definition scenario : SurveyParameters := {|
  survey_type := "annual_agri";
  population_size := 15000;
  confidence_level := 95;
  margin_error := 0.05;
  avg_cluster_size := 25;
  icc := Some 0.15;
  expected_prevalence := 0.5;
  non_response_rate := 0.10;
  effect_size := None;
  alpha := 0.05;
  power := 0.8
|}.

(** The scenario with an explicit ICC of zero. *)
Definition scenario_icc_zero : SurveyParameters := {|
  survey_type := "annual_agri";
  population_size := 15000;
  confidence_level := 95;
  margin_error := 0.05;
  avg_cluster_size := 25;
  icc := Some 0;
  expected_prevalence := 0.5;
  non_response_rate := 0.10;
  effect_size := None;
  alpha := 0.05;
  power := 0.8
|}.

(** The scenario with a non-response rate of 200 %. *)
Definition scenario_all_refuse_twice : SurveyParameters := {|
  survey_type := "annual_agri";
  population_size := 15000;
  confidence_level := 95;
  margin_error := 0.05;
  avg_cluster_size := 25;
  icc := Some 0.15;
  expected_prevalence := 0.5;
  non_response_rate := 2;
  effect_size := None;
  alpha := 0.05;
  power := 0.8
|}.

(** The scenario with a non-response rate of 100 %. *)
Definition scenario_none_respond : SurveyParameters := {|
  survey_type := "annual_agri";
  population_size := 15000;
  confidence_level := 95;
  margin_error := 0.05;
  avg_cluster_size := 25;
  icc := Some 0.15;
  expected_prevalence := 0.5;
  non_response_rate := 1;
  effect_size := None;
  alpha := 0.05;
  power := 0.8
|}.

(** The scenario with a confidence level of 80 %. *)
Definition scenario_confidence_80 : SurveyParameters := {|
  survey_type := "annual_agri";
  population_size := 15000;
  confidence_level := 80;
  margin_error := 0.05;
  avg_cluster_size := 25;
  icc := Some 0.15;
  expected_prevalence := 0.5;
  non_response_rate := 0.10;
  effect_size := None;
  alpha := 0.05;
  power := 0.8
|}.

(** The scenario with the power triple given and an effect size [d]. *)
Definition scenario_with_effect (d : option Q) : SurveyParameters := {|
  survey_type := "annual_agri";
  population_size := 15000;
  confidence_level := 95;
  margin_error := 0.05;
  avg_cluster_size := 25;
  icc := Some 0.15;
  expected_prevalence := 0.5;
  non_response_rate := 0.10;
  effect_size := d;
  alpha := 0.05;
  power := 0.8
|}.

(** [params] with another margin of error, all other fields unchanged. *)
Definition with_margin_error (params : SurveyParameters) (e : Q)
  : SurveyParameters := {|
  survey_type := survey_type params;
  population_size := population_size params;
  confidence_level := confidence_level params;
  margin_error := e;
  avg_cluster_size := avg_cluster_size params;
  icc := icc params;
  expected_prevalence := expected_prevalence params;
  non_response_rate := non_response_rate params;
  effect_size := effect_size params;
  alpha := alpha params;
  power := power params
|}.

(** [params] with another ICC, all other fields unchanged. *)
Definition with_icc (params : SurveyParameters) (rho : option Q)
  : SurveyParameters := {|
  survey_type := survey_type params;
  population_size := population_size params;
  confidence_level := confidence_level params;
  margin_error := margin_error params;
  avg_cluster_size := avg_cluster_size params;
  icc := rho;
  expected_prevalence := expected_prevalence params;
  non_response_rate := non_response_rate params;
  effect_size := effect_size params;
  alpha := alpha params;
  power := power params
|}.

(** [params] with another cluster size, all other fields unchanged. *)
Definition with_avg_cluster_size (params : SurveyParameters) (b : Z)
  : SurveyParameters := {|
  survey_type := survey_type params;
  population_size := population_size params;
  confidence_level := confidence_level params;
  margin_error := margin_error params;
  avg_cluster_size := b;
  icc := icc params;
  expected_prevalence := expected_prevalence params;
  non_response_rate := non_response_rate params;
  effect_size := effect_size params;
  alpha := alpha params;
  power := power params
|}.

(** [params] with another confidence level, all other fields unchanged. *)
Definition with_confidence_level (params : SurveyParameters) (c : Z)
  : SurveyParameters := {|
  survey_type := survey_type params;
  population_size := population_size params;
  confidence_level := c;
  margin_error := margin_error params;
  avg_cluster_size := avg_cluster_size params;
  icc := icc params;
  expected_prevalence := expected_prevalence params;
  non_response_rate := non_response_rate params;
  effect_size := effect_size params;
  alpha := alpha params;
  power := power params
|}.

(** [params] with another power triple, all other fields unchanged. *)
Definition with_power_analysis (params : SurveyParameters)
    (d : option Q) (a p : Q) : SurveyParameters := {|
  survey_type := survey_type params;
  population_size := population_size params;
  confidence_level := confidence_level params;
  margin_error := margin_error params;
  avg_cluster_size := avg_cluster_size params;
  icc := icc params;
  expected_prevalence := expected_prevalence params;
  non_response_rate := non_response_rate params;
  effect_size := d;
  alpha := a;
  power := p
|}.

(** ** The dashboard ([app.py]) and the session ([auth_lib.py]) *)

(** A value stored in [st.session_state]: a boolean or a string. *)
Inductive session_value : Type :=
| SBool (b : bool)
| SStr (s : string).

(** [authenticate_user]: [st] is [st.session_state], a dictionary keyed
    by strings; an attribute of the session state is the entry of that
    name. *)
Definition authenticate_user (st : gmap string session_value)
  : gmap string session_value :=
  match st !! "authenticated" with
  | None => <["user" := SStr "ess_user"]> (<["authenticated" := SBool true]> st)
  | Some _ => st
  end.

(** The [SurveyParameters] that [main] builds from the values of the
    form: the margin of error and the non-response rate are entered in
    percent, the prevalence is left to its default. *)
Definition form_parameters (survey_id : string)
    (pop_size confidence margin_pct cluster_size : Z) (icc_value : Q)
    (non_response_pct : Z) (effect alpha_value power_value : Q)
  : SurveyParameters := {|
  survey_type := survey_id;
  population_size := pop_size;
  confidence_level := confidence;
  margin_error := inject_Z margin_pct / 100;
  avg_cluster_size := cluster_size;
  icc := Some icc_value;
  expected_prevalence := 0.5;
  non_response_rate := inject_Z non_response_pct / 100;
  effect_size := Some effect;
  alpha := alpha_value;
  power := power_value
|}.

(** [icc_range] of [display_results]: [x/100] for [x] in [range(1, 31)]. *)
Definition icc_range : list Q := (fun x => inject_Z x / 100) <$> seqZ 1 30.

(** [deff_values] of [display_results]: the design effect recomputed from
    the cluster size of the result, for every ICC of [icc_range]. *)
Definition deff_values (results : SampleSizeResult) : list Q :=
  (fun rho => 1 + inject_Z (cluster_size results - 1) * rho) <$> icc_range.

(** ** The arithmetic in binary64

    The base sample size and the non-response inflation once more, with
    every float a binary64 number and every operation rounded as the
    interpreter rounds it.  [x ** 2] is the rounded product [x * x]. *)

Module Binary64.

Import PrimFloat.
#[local] Set Warnings "-inexact-float".
Local Open Scope float_scope.

(** True division: raises on a divisor equal to zero, of either sign. *)
Definition py_div (a b : PrimFloat.float) : result PrimFloat.float :=
  if (b =? 0) then Raise ZeroDivisionError else Ok (a / b).

Record SurveyParameters : Type := {
  survey_type : string;
  population_size : Z;
  confidence_level : Z;
  margin_error : PrimFloat.float;
  avg_cluster_size : Z;
  icc : option PrimFloat.float;
  expected_prevalence : PrimFloat.float;
  non_response_rate : PrimFloat.float;
  effect_size : option PrimFloat.float;
  alpha : PrimFloat.float;
  power : PrimFloat.float
}.

(** [self.confidence_levels], as [__init__] sets it. *)
Definition confidence_levels : gmap Z PrimFloat.float :=
  {[ 90%Z := 1.645; 95%Z := 1.96; 99%Z := 2.576 ]}.

(** [_calculate_base_sample]. *)
Definition _calculate_base_sample (params : SurveyParameters)
  : result PrimFloat.float :=
  let* Z := match confidence_levels !! confidence_level params with
             | Some z => Ok z
             | None => Raise KeyError
             end in
  py_div (Z * Z * expected_prevalence params
          * (1 - expected_prevalence params))
         (margin_error params * margin_error params).

(** The non-response inflation,
    [n_fpc / (1 - params.non_response_rate)]. *)
Definition non_response_inflation (n_fpc r : PrimFloat.float)
  : result PrimFloat.float :=
  py_div n_fpc (1 - r).

(** The scenario of the specification at the confidence level 90 and
    with the margin of error [e]. *)
Definition scenario_90 (e : PrimFloat.float) : SurveyParameters := {|
  survey_type := "annual_agri";
  population_size := 15000;
  confidence_level := 90;
  margin_error := e;
  avg_cluster_size := 25;
  icc := Some 0.15;
  expected_prevalence := 0.5;
  non_response_rate := 0.10;
  effect_size := None;
  alpha := 0.05;
  power := 0.8
|}.

(** A margin of error and the float that follows it. *)
Definition margin_a : PrimFloat.float := 0.78165164840250778.
Definition margin_b : PrimFloat.float := PrimFloat.next_up margin_a.

(** A margin of error whose square underflows to zero. *)
Definition margin_tiny : PrimFloat.float := 1e-200.

(** A non-response rate and the float that follows it. *)
Definition rate_a : PrimFloat.float := 0.1.
Definition rate_b : PrimFloat.float := PrimFloat.next_up rate_a.

(** A corrected sample size. *)
Definition n_fpc_1581 : PrimFloat.float := 1581.

End Binary64.

(** The least margin of error of the statements on margins, [1e-150]:
    from there up to 1 the square of a margin does not underflow and the
    quotient by it does not overflow in binary64. *)
Definition margin_floor : Q := Eval vm_compute in (1 # 10 ^ 150).

(** * Properties *)

(** ** The error monad and the primitives *)

Lemma bind_Ok {A B : Type} (m : result A) (k : A -> result B) (b : B) :
  bind m k = Ok b -> exists a, m = Ok a /\ k a = Ok b.
Proof. destruct m as [a|e]; simpl; [eauto | discriminate]. Qed.

Lemma bind_Raise {A B : Type} (m : result A) (k : A -> result B) (e : exn) :
  m = Raise e -> bind m k = Raise e.
Proof. intros ->; reflexivity. Qed.

Lemma py_div_nonzero (a b : Q) : ~ b == 0 -> py_div a b = Ok (a / b).
Proof.
  intros Hb; unfold py_div.
  destruct (Qeq_bool b 0) eqn:E; [|reflexivity].
  apply Qeq_bool_eq in E; contradiction.
Qed.

Lemma py_div_zero (a b : Q) : b == 0 -> py_div a b = Raise ZeroDivisionError.
Proof.
  intros Hb; unfold py_div.
  apply Qeq_bool_iff in Hb. rewrite Hb. reflexivity.
Qed.

Lemma py_div_inv (a b c : Q) : py_div a b = Ok c -> ~ b == 0 /\ c = a / b.
Proof.
  unfold py_div. destruct (Qeq_bool b 0) eqn:E; [discriminate|].
  intros [= <-]. split; [|reflexivity].
  intros Hb. apply Qeq_bool_iff in Hb. congruence.
Qed.

Lemma truthy_true (q : Q) : truthy q = true <-> ~ q == 0.
Proof.
  unfold truthy. rewrite negb_true_iff. split.
  - intros E H. apply Qeq_bool_iff in H. congruence.
  - intros H. destruct (Qeq_bool q 0) eqn:E; [|reflexivity].
    apply Qeq_bool_eq in E; contradiction.
Qed.

Lemma truthy_false (q : Q) : truthy q = false <-> q == 0.
Proof.
  unfold truthy. rewrite negb_false_iff. apply Qeq_bool_iff.
Qed.

(** ** The worked scenario *)

(** C1, as the code computes it: on the scenario of the specification
    (population 15000, confidence 95, margin 0.05, prevalence 0.5, cluster
    size 25, ICC 0.15, non-response 0.10, profile [annual_agri]) the
    calculation returns base 385, design effect 4.6, adjusted 1768 and
    final 1757, whatever the power solver. *)
Theorem calculate_sample_scenario (solver : Q -> Q -> Q -> result Q) :
  exists r,
    calculate_sample solver default_calculator scenario = Ok r
    /\ base_sample_size r = 385%Z
    /\ design_effect r == 4.6
    /\ adjusted_sample_size r = 1768%Z
    /\ final_sample_size r = 1757%Z.
Proof.
  eexists; split; [vm_compute; reflexivity|].
  repeat split; vm_compute; reflexivity.
Qed.

(** C1, as stated, fails: the final sample size of the scenario is not
    1737. *)
Lemma scenario_final_is_not_1737 :
  ~ (exists r,
       calculate_sample table_solver default_calculator scenario = Ok r
       /\ base_sample_size r = 385%Z
       /\ design_effect r == 4.6
       /\ adjusted_sample_size r = 1768%Z
       /\ final_sample_size r = 1737%Z).
Proof.
  intros (r & Hr & _ & _ & _ & Hfinal).
  vm_compute in Hr. injection Hr as <-.
  vm_compute in Hfinal. discriminate.
Qed.

(** ** Resolution of the ICC *)

Lemma or_default_zero (q d : Q) : q == 0 -> or_default (Some q) d = d.
Proof.
  intros Hq. unfold or_default.
  apply truthy_false in Hq. rewrite Hq. reflexivity.
Qed.

Lemma or_default_nonzero (q d : Q) : ~ q == 0 -> or_default (Some q) d = q.
Proof.
  intros Hq. unfold or_default.
  apply truthy_true in Hq. rewrite Hq. reflexivity.
Qed.

(** C4, the code at an explicit ICC of zero: the profile's default 0.15
    is used and reported, the design effect is 4.6 and the adjusted sample
    size 1768, not the ceiling 385 of the base sample size. *)
Theorem explicit_zero_icc_falls_back (solver : Q -> Q -> Q -> result Q) :
  icc scenario_icc_zero = Some 0
  /\ exists r,
       calculate_sample solver default_calculator scenario_icc_zero = Ok r
       /\ icc_used r == 0.15
       /\ design_effect r == 4.6
       /\ base_sample_size r = 385%Z
       /\ adjusted_sample_size r = 1768%Z.
Proof.
  split; [reflexivity|].
  eexists; split; [vm_compute; reflexivity|].
  repeat split; vm_compute; reflexivity.
Qed.

(** ** Profile lookup *)

Lemma find_profile_None (ty : string) (profiles : list SurveyProfile) :
  ty ∉ profile_id <$> profiles ->
  List.find (fun p => String.eqb (profile_id p) ty) profiles = None.
Proof.
  induction profiles as [|p profiles IH]; simpl; [reflexivity|].
  rewrite not_elem_of_cons. intros [Hne Hrest].
  destruct (String.eqb_spec (profile_id p) ty) as [E|_].
  - congruence.
  - exact (IH Hrest).
Qed.

Lemma find_profile_Some (ty : string) (profiles : list SurveyProfile) :
  ty ∈ profile_id <$> profiles ->
  exists p, List.find (fun p => String.eqb (profile_id p) ty) profiles = Some p
            /\ profile_id p = ty.
Proof.
  induction profiles as [|p profiles IH]; simpl.
  - intros H. inversion H.
  - rewrite elem_of_cons.
    destruct (String.eqb_spec (profile_id p) ty) as [E|Hne].
    + intros _. exists p. split; [reflexivity|exact E].
    + intros [E|Hin]; [congruence|]. exact (IH Hin).
Qed.

Lemma next_profile_unknown (self : ESSSampleSizeCalculator) (ty : string) :
  ty ∉ profile_id <$> survey_profiles self ->
  next_profile self ty = Raise StopIteration.
Proof.
  intros H. unfold next_profile. rewrite (find_profile_None _ _ H).
  reflexivity.
Qed.

Lemma next_profile_known (self : ESSSampleSizeCalculator) (ty : string) :
  ty ∈ profile_id <$> survey_profiles self ->
  exists p, next_profile self ty = Ok p /\ profile_id p = ty.
Proof.
  intros H. unfold next_profile.
  destruct (find_profile_Some _ _ H) as (p & -> & Hp). eauto.
Qed.

(** C5: when the survey type is the identifier of no profile of the
    registry, the calculation raises [StopIteration], the exception of the
    failed lookup, and so returns no result. *)
Theorem unknown_survey_type_raises (solver : Q -> Q -> Q -> result Q)
    (self : ESSSampleSizeCalculator) (params : SurveyParameters) :
  survey_type params ∉ profile_id <$> survey_profiles self ->
  calculate_sample solver self params = Raise StopIteration.
Proof.
  intros H. unfold calculate_sample.
  apply bind_Raise, next_profile_unknown, H.
Qed.

Lemma unknown_survey_type_raises_witness :
  calculate_sample table_solver default_calculator
    (default_parameters "labour_force" 15000) = Raise StopIteration.
Proof.
  apply unknown_survey_type_raises.
  apply (bool_decide_unpack _). vm_compute. exact I.
Defined.

(** ** Confidence levels *)

Lemma confidence_levels_init (assets : option (list SurveyProfile)) (c : Z) :
  confidence_levels (init assets) !! c =
    if decide (c = 90%Z) then Some 1.645
    else if decide (c = 95%Z) then Some 1.96
    else if decide (c = 99%Z) then Some 2.576
    else None.
Proof.
  unfold init; simpl.
  repeat case_decide; subst; simplify_map_eq; reflexivity.
Qed.

Lemma confidence_levels_unknown (assets : option (list SurveyProfile)) (c : Z) :
  c ∉ [90%Z; 95%Z; 99%Z] -> confidence_levels (init assets) !! c = None.
Proof.
  rewrite !not_elem_of_cons. intros (H90 & H95 & H99 & _).
  rewrite confidence_levels_init.
  repeat case_decide; congruence.
Qed.

Lemma confidence_levels_known (assets : option (list SurveyProfile)) (c : Z) :
  c ∈ [90%Z; 95%Z; 99%Z] ->
  exists z, confidence_levels (init assets) !! c = Some z /\ 0 < z.
Proof.
  rewrite !elem_of_cons. intros [->|[->|[->|H]]].
  - exists 1.645. split; [apply confidence_levels_init | reflexivity].
  - exists 1.96. split; [apply confidence_levels_init | reflexivity].
  - exists 2.576. split; [apply confidence_levels_init | reflexivity].
  - inversion H.
Qed.

Lemma base_sample_unknown_level (assets : option (list SurveyProfile))
    (params : SurveyParameters) :
  confidence_level params ∉ [90%Z; 95%Z; 99%Z] ->
  _calculate_base_sample (init assets) params = Raise KeyError.
Proof.
  intros H. unfold _calculate_base_sample.
  rewrite (confidence_levels_unknown _ _ H). reflexivity.
Qed.

(** C10: with a confidence level other than 90, 95 and 99 the calculation
    returns no result: it raises [KeyError], the failed lookup of the
    z-score, unless the lookup of the profile has already raised
    [StopIteration]; when the survey type is known the exception is
    [KeyError]. *)
Theorem unknown_confidence_level_raises (solver : Q -> Q -> Q -> result Q)
    (assets : option (list SurveyProfile)) (params : SurveyParameters) :
  confidence_level params ∉ [90%Z; 95%Z; 99%Z] ->
  (calculate_sample solver (init assets) params = Raise KeyError
   \/ calculate_sample solver (init assets) params = Raise StopIteration)
  /\ (survey_type params ∈ profile_id <$> survey_profiles (init assets) ->
      calculate_sample solver (init assets) params = Raise KeyError).
Proof.
  intros Hc.
  assert (Hknown :
    forall p, next_profile (init assets) (survey_type params) = Ok p ->
              calculate_sample solver (init assets) params = Raise KeyError).
  { intros p Hp. unfold calculate_sample. rewrite Hp. simpl.
    rewrite (base_sample_unknown_level _ _ Hc). reflexivity. }
  split.
  - destruct (next_profile (init assets) (survey_type params)) as [p|e] eqn:E.
    + left. exact (Hknown p eq_refl).
    + right. unfold calculate_sample. rewrite E. simpl.
      unfold next_profile in E.
      destruct (List.find _ _); [discriminate|]. congruence.
  - intros Hin. destruct (next_profile_known _ _ Hin) as (p & Hp & _).
    exact (Hknown p Hp).
Qed.

Lemma unknown_confidence_level_raises_witness :
  calculate_sample table_solver (init None) scenario_confidence_80
  = Raise KeyError.
Proof.
  apply unknown_confidence_level_raises.
  - apply (bool_decide_unpack _). vm_compute. exact I.
  - apply (bool_decide_unpack _). vm_compute. exact I.
Defined.

(** ** Design effect *)

(** C7: for an ICC [rho] in [0,1] and a cluster size [b >= 1] the design
    effect is [1 + (b - 1) * rho], and it is 1 at [rho = 0] for any [b]. *)
Theorem calculate_deff_formula (b : Z) (rho : Q) :
  0 <= rho <= 1 -> (1 <= b)%Z ->
  calculate_deff b rho == 1 + (inject_Z b - 1) * rho
  /\ forall b' : Z, calculate_deff b' 0 == 1.
Proof.
  intros _ _. unfold calculate_deff. split.
  - unfold Z.sub. rewrite inject_Z_plus, inject_Z_opp.
    change (inject_Z 1) with 1. ring.
  - intros b'. ring.
Qed.

Lemma calculate_deff_formula_witness :
  calculate_deff 25 0.15 == 1 + (inject_Z 25 - 1) * 0.15
  /\ forall b' : Z, calculate_deff b' 0 == 1.
Proof.
  apply calculate_deff_formula; [split; lra | lia].
Defined.

(** ** Non-response inflation *)

Lemma non_response_inflation_below_one (n r : Q) :
  r < 1 -> non_response_inflation n r = Ok (n / (1 - r)).
Proof.
  intros Hr. unfold non_response_inflation.
  apply py_div_nonzero. lra.
Qed.

Lemma inflation_ge (n r : Q) : 0 <= n -> 0 <= r < 1 -> n <= n / (1 - r).
Proof.
  intros Hn [Hr0 Hr1].
  apply Qle_shift_div_l; [lra | nra].
Qed.

Lemma inflation_lt (n r r' : Q) :
  0 < n -> r < r' -> r' < 1 -> n / (1 - r) < n / (1 - r').
Proof.
  intros Hn Hrr Hr1.
  apply Qlt_shift_div_l; [lra|].
  assert (E : n / (1 - r) * (1 - r') == n * (1 - r') / (1 - r)) by (field; lra).
  rewrite E.
  apply Qlt_shift_div_r; [lra | nra].
Qed.

(** C9, as the code computes it: for [n_fpc >= 0] and a non-response rate
    [r] in [0,1) the inflation returns [n_fpc / (1 - r)], which is at
    least [n_fpc]; and for [n_fpc > 0] it does not decrease when [r]
    grows within [0,1). *)
Theorem non_response_inflation_never_shrinks (n_fpc r : Q) :
  0 <= n_fpc -> 0 <= r < 1 ->
  (exists final_n,
      non_response_inflation n_fpc r = Ok final_n
      /\ final_n == n_fpc / (1 - r)
      /\ n_fpc <= final_n)
  /\ (forall r', 0 < n_fpc -> r < r' < 1 ->
      exists final_n final_n',
        non_response_inflation n_fpc r = Ok final_n
        /\ non_response_inflation n_fpc r' = Ok final_n'
        /\ final_n <= final_n').
Proof.
  intros Hn Hr. split.
  - exists (n_fpc / (1 - r)). split; [|split].
    + apply non_response_inflation_below_one, Hr.
    + reflexivity.
    + apply inflation_ge; assumption.
  - intros r' Hpos [Hrr Hr1].
    exists (n_fpc / (1 - r)), (n_fpc / (1 - r')). split; [|split].
    + apply non_response_inflation_below_one, Hr.
    + apply non_response_inflation_below_one, Hr1.
    + apply Qlt_le_weak, inflation_lt; assumption.
Qed.

Lemma non_response_inflation_never_shrinks_witness :
  (exists final_n,
      non_response_inflation 1581 0.1 = Ok final_n
      /\ final_n == 1581 / (1 - 0.1)
      /\ 1581 <= final_n)
  /\ (exists final_n final_n',
        non_response_inflation 1581 0.1 = Ok final_n
        /\ non_response_inflation 1581 0.3 = Ok final_n'
        /\ final_n <= final_n').
Proof.
  assert (H0 : 0 <= 1581) by lra.
  assert (Hr : 0 <= 0.1 < 1) by (split; lra).
  destruct (non_response_inflation_never_shrinks 1581 0.1 H0 Hr)
    as [Hge Hle].
  split; [exact Hge|].
  apply (Hle 0.3); [lra | split; lra].
Defined.

(** C9, as stated, fails in binary64: for the corrected size 1581 the
    non-response rate 0.1 and the float that follows it give the same
    final size, because [1 - r] and the quotient are rounded. *)
Lemma inflation_ties_in_binary64 :
  PrimFloat.ltb PrimFloat.zero Binary64.n_fpc_1581 = true
  /\ PrimFloat.leb PrimFloat.zero Binary64.rate_a = true
  /\ PrimFloat.ltb Binary64.rate_a Binary64.rate_b = true
  /\ PrimFloat.ltb Binary64.rate_b PrimFloat.one = true
  /\ exists final_n,
       Binary64.non_response_inflation Binary64.n_fpc_1581 Binary64.rate_a
         = Ok final_n
       /\ Binary64.non_response_inflation Binary64.n_fpc_1581
            Binary64.rate_b = Ok final_n.
Proof.
  vm_compute. do 4 (split; [reflexivity|]).
  eexists. split; reflexivity.
Qed.

(** ** Base sample size *)

Lemma base_sample_value (self : ESSSampleSizeCalculator)
    (params : SurveyParameters) (z : Q) :
  confidence_levels self !! confidence_level params = Some z ->
  ~ margin_error params == 0 ->
  _calculate_base_sample self params =
    Ok (z * z * expected_prevalence params
        * (1 - expected_prevalence params)
        / (margin_error params * margin_error params)).
Proof.
  intros Hz He. unfold _calculate_base_sample. rewrite Hz.
  cbn [bind]. apply py_div_nonzero. nra.
Qed.

Lemma quotient_decreasing (k e1 e2 : Q) :
  0 < k -> 0 < e1 -> e1 < e2 -> k / (e2 * e2) < k / (e1 * e1).
Proof.
  intros Hk He1 He12.
  assert (H1 : 0 < e1 * e1) by nra.
  assert (H2 : 0 < e2 * e2) by nra.
  apply Qlt_shift_div_r; [exact H2|].
  assert (E : k / (e1 * e1) * (e2 * e2) == k * (e2 * e2) / (e1 * e1))
    by (field; lra).
  rewrite E.
  apply Qlt_shift_div_l; [exact H1|].
  apply Qmult_lt_l; [exact Hk | nra].
Qed.

(** C8, as the code computes it: for a confidence level among 90, 95 and
    99, a prevalence in (0,1) and two margins [1e-150 <= e1 < e2 < 1],
    all other parameters equal, the base sample size is computed for both
    margins and the one for [e1] is at least the one for [e2]. *)
Theorem base_sample_weakly_decreases_with_margin
    (assets : option (list SurveyProfile)) (params : SurveyParameters)
    (e1 e2 : Q) :
  confidence_level params ∈ [90%Z; 95%Z; 99%Z] ->
  0 < expected_prevalence params < 1 ->
  margin_floor <= e1 -> e1 < e2 -> e2 < 1 ->
  exists n1 n2,
    _calculate_base_sample (init assets) (with_margin_error params e1) = Ok n1
    /\ _calculate_base_sample (init assets) (with_margin_error params e2)
       = Ok n2
    /\ n2 <= n1.
Proof.
  intros Hc [Hp0 Hp1] Hfloor He12 He2.
  assert (He1 : 0 < e1) by (unfold margin_floor in Hfloor; lra).
  destruct (confidence_levels_known assets _ Hc) as (z & Hz & Hpos).
  set (p := expected_prevalence params) in *.
  exists (z * z * p * (1 - p) / (e1 * e1)), (z * z * p * (1 - p) / (e2 * e2)).
  split; [|split].
  - apply (base_sample_value _ (with_margin_error params e1) z Hz).
    cbn [margin_error with_margin_error]. lra.
  - apply (base_sample_value _ (with_margin_error params e2) z Hz).
    cbn [margin_error with_margin_error]. lra.
  - apply Qlt_le_weak, quotient_decreasing; [|exact He1|exact He12].
    assert (0 < z * z) by nra. assert (0 < p * (1 - p)) by nra.
    assert (E : z * z * p * (1 - p) == (z * z) * (p * (1 - p))) by ring.
    rewrite E.
    nra.
Qed.

Lemma base_sample_weakly_decreases_with_margin_witness :
  exists n1 n2,
    _calculate_base_sample (init None) (with_margin_error scenario 0.05)
      = Ok n1
    /\ _calculate_base_sample (init None) (with_margin_error scenario 0.1)
       = Ok n2
    /\ n2 <= n1.
Proof.
  apply base_sample_weakly_decreases_with_margin.
  - apply (bool_decide_unpack _). vm_compute. exact I.
  - simpl. split; lra.
  - unfold margin_floor. lra.
  - lra.
  - lra.
Defined.

(** C8, as stated, fails in binary64: at the confidence level 90 and the
    prevalence 0.5, the margin 0.78165164840250778 and the float that
    follows it give the same base sample size; and for the margin 1e-200
    the square underflows to zero and the division raises
    [ZeroDivisionError]. *)
Lemma base_sample_ties_in_binary64 :
  PrimFloat.ltb PrimFloat.zero Binary64.margin_a = true
  /\ PrimFloat.ltb Binary64.margin_a Binary64.margin_b = true
  /\ PrimFloat.ltb Binary64.margin_b PrimFloat.one = true
  /\ (exists n,
        Binary64._calculate_base_sample
          (Binary64.scenario_90 Binary64.margin_a) = Ok n
        /\ Binary64._calculate_base_sample
             (Binary64.scenario_90 Binary64.margin_b) = Ok n)
  /\ PrimFloat.ltb PrimFloat.zero Binary64.margin_tiny = true
  /\ Binary64._calculate_base_sample
       (Binary64.scenario_90 Binary64.margin_tiny) = Raise ZeroDivisionError.
Proof.
  vm_compute. do 3 (split; [reflexivity|]).
  split; [eexists; split; reflexivity|].
  split; reflexivity.
Qed.

(** ** Finite population correction *)

Lemma inject_Z_pos (N : Z) : (0 < N)%Z -> 0 < inject_Z N.
Proof. intros HN. unfold Qlt. simpl. lia. Qed.

Lemma apply_fpc_zero (n : Q) : _apply_fpc n 0 = Ok n.
Proof. reflexivity. Qed.

Lemma apply_fpc_value (n : Q) (N : Z) :
  (0 < N)%Z -> ~ 1 + (n - 1) / inject_Z N == 0 ->
  _apply_fpc n N = Ok (n / (1 + (n - 1) / inject_Z N)).
Proof.
  intros HN Hd. unfold _apply_fpc, truthy_int.
  destruct (Z.eqb_spec N 0) as [->|_]; [lia|]. cbn [negb].
  rewrite py_div_nonzero.
  - cbn [bind]. apply py_div_nonzero, Hd.
  - pose proof (inject_Z_pos N HN). lra.
Qed.

Lemma fpc_denominator (n m : Q) :
  0 < m -> 1 + (n - 1) / m == (m + n - 1) / m.
Proof. intros Hm. field. lra. Qed.

Lemma fpc_le (n m : Q) :
  1 <= n -> 0 < m -> n / (1 + (n - 1) / m) <= n /\ 1 <= 1 + (n - 1) / m.
Proof.
  intros Hn Hm.
  assert (Hq : 0 <= (n - 1) / m) by (apply Qle_shift_div_l; [exact Hm | lra]).
  split; [|lra].
  apply Qle_shift_div_r; [lra | nra].
Qed.

Lemma fpc_gap (n m : Q) :
  0 < m -> 0 < m + n - 1 ->
  n / (1 + (n - 1) / m) - n == - (n * (n - 1)) / (m + n - 1).
Proof. intros Hm Hd. field. split; lra. Qed.

Lemma fpc_close (n m eps : Q) :
  0 < eps -> 0 < m -> Qabs (n * (n - 1)) / eps + 1 - n < m ->
  ~ 1 + (n - 1) / m == 0
  /\ Qabs (n / (1 + (n - 1) / m) - n) < eps.
Proof.
  intros Heps Hm Hbig.
  set (x := n * (n - 1)) in *.
  assert (HA : 0 <= Qabs x) by apply Qabs_nonneg.
  assert (Hq : 0 <= Qabs x / eps)
    by (apply Qle_shift_div_l; [exact Heps | lra]).
  assert (Hd : 0 < m + n - 1) by lra.
  assert (Hprod : Qabs x < eps * (m + n - 1)).
  { assert (E : Qabs x == Qabs x / eps * eps) by (field; lra).
    rewrite E, (Qmult_comm eps).
    apply Qmult_lt_r; [exact Heps | lra]. }
  assert (Hx1 : x <= Qabs x) by apply Qle_Qabs.
  assert (Hx2 : - x <= Qabs x) by (rewrite <- Qabs_opp; apply Qle_Qabs).
  split.
  - rewrite (fpc_denominator n m Hm). intros H0.
    assert (E : m + n - 1 == (m + n - 1) / m * m) by (field; lra).
    rewrite H0 in E. lra.
  - rewrite (fpc_gap n m Hm Hd). fold x.
    apply Qabs_Qlt_condition. split.
    + apply Qlt_shift_div_l; [exact Hd | lra].
    + apply Qlt_shift_div_r; [exact Hd | lra].
Qed.

(** C6, as the code computes it: for a design sample size [n >= 1] and a
    positive population size [N] the correction returns
    [n / (1 + (n - 1) / N)], which is at most [n]; for every [n] the
    corrected size comes within any [eps > 0] of [n] for all large enough
    [N]; and for [N = 0] the correction is skipped. *)
Theorem apply_fpc_correction :
  (forall (n : Q) (N : Z), 1 <= n -> (0 < N)%Z ->
     exists n_fpc,
       _apply_fpc n N = Ok n_fpc
       /\ n_fpc == n / (1 + (n - 1) / inject_Z N)
       /\ n_fpc <= n)
  /\ (forall n eps : Q, 0 < eps ->
      exists N0 : Z, forall N : Z, (N0 <= N)%Z ->
        exists n_fpc, _apply_fpc n N = Ok n_fpc /\ Qabs (n_fpc - n) < eps)
  /\ (forall n : Q, _apply_fpc n 0 = Ok n).
Proof.
  split; [|split].
  - intros n N Hn HN.
    assert (Hm : 0 < inject_Z N) by exact (inject_Z_pos N HN).
    destruct (fpc_le n (inject_Z N) Hn Hm) as [Hle Hden].
    exists (n / (1 + (n - 1) / inject_Z N)). split; [|split].
    + apply apply_fpc_value; [exact HN | lra].
    + reflexivity.
    + exact Hle.
  - intros n eps Heps.
    set (q := Qabs (n * (n - 1)) / eps + 1 - n).
    exists (Z.max 1 (Qceiling q + 1)). intros N HN.
    assert (HN1 : (0 < N)%Z) by lia.
    assert (Hm : 0 < inject_Z N) by exact (inject_Z_pos N HN1).
    assert (Hq : q < inject_Z N).
    { apply Qle_lt_trans with (inject_Z (Qceiling q)); [apply Qle_ceiling|].
      rewrite <- Zlt_Qlt. lia. }
    destruct (fpc_close n (inject_Z N) eps Heps Hm Hq) as [Hnz Hclose].
    exists (n / (1 + (n - 1) / inject_Z N)). split.
    + apply apply_fpc_value; [exact HN1 | exact Hnz].
    + exact Hclose.
  - exact apply_fpc_zero.
Qed.

Lemma apply_fpc_correction_witness :
  (exists n_fpc,
      _apply_fpc 1767.136 15000 = Ok n_fpc
      /\ n_fpc == 1767.136 / (1 + (1767.136 - 1) / inject_Z 15000)
      /\ n_fpc <= 1767.136)
  /\ (exists N0 : Z, forall N : Z, (N0 <= N)%Z ->
        exists n_fpc,
          _apply_fpc 1767.136 N = Ok n_fpc
          /\ Qabs (n_fpc - 1767.136) < 0.001).
Proof.
  destruct apply_fpc_correction as (Hle & Hlim & _).
  split.
  - apply Hle; [lra | lia].
  - apply Hlim. lra.
Defined.

(** C6, as stated, fails: a design sample size of one half in a
    population of one is corrected upwards, to one. *)
Lemma apply_fpc_can_increase :
  exists n_fpc, _apply_fpc 0.5 1 = Ok n_fpc /\ ~ n_fpc <= 0.5.
Proof.
  eexists. split; [vm_compute; reflexivity|].
  intros H. vm_compute in H. apply H. reflexivity.
Qed.

(** ** Exceptions of the steps before the power analysis *)

Lemma next_profile_exn (self : ESSSampleSizeCalculator) (ty : string)
    (e : exn) :
  next_profile self ty = Raise e -> e = StopIteration.
Proof.
  unfold next_profile. destruct (List.find _ _); congruence.
Qed.

Lemma py_div_exn (a b : Q) (e : exn) :
  py_div a b = Raise e -> e = ZeroDivisionError.
Proof. unfold py_div. destruct (Qeq_bool b 0); congruence. Qed.

Lemma base_sample_exn (self : ESSSampleSizeCalculator)
    (params : SurveyParameters) (e : exn) :
  _calculate_base_sample self params = Raise e ->
  e = KeyError \/ e = ZeroDivisionError.
Proof.
  unfold _calculate_base_sample.
  destruct (confidence_levels self !! confidence_level params); cbn [bind].
  - intros H. right. exact (py_div_exn _ _ _ H).
  - intros [= <-]. left. reflexivity.
Qed.

Lemma apply_fpc_exn (n : Q) (N : Z) (e : exn) :
  _apply_fpc n N = Raise e -> e = ZeroDivisionError.
Proof.
  unfold _apply_fpc. destruct (truthy_int N); [|discriminate].
  destruct (py_div (n - 1) (inject_Z N)) as [t|e'] eqn:E; cbn [bind].
  - apply py_div_exn.
  - intros [= <-]. exact (py_div_exn _ _ _ E).
Qed.

(** ** A non-response rate of one or more *)

(** C2, as the code behaves: there is no check of the non-response rate.
    With a rate of exactly 1 the calculation returns no result: it raises
    an exception before the power analysis ([ZeroDivisionError] from the
    inflation, unless an earlier step has raised).  With a rate above 1
    the inflation does not raise: it returns [n_fpc / (1 - r)], which is
    at most zero for [n_fpc >= 0]. *)
Theorem non_response_rate_of_one_or_more
    (solver : Q -> Q -> Q -> result Q) (self : ESSSampleSizeCalculator)
    (params : SurveyParameters) :
  1 <= non_response_rate params ->
  (non_response_rate params == 1 ->
     exists e, calculate_sample solver self params = Raise e
               /\ e <> SolverError)
  /\ (1 < non_response_rate params ->
      forall n_fpc,
        non_response_inflation n_fpc (non_response_rate params)
          = Ok (n_fpc / (1 - non_response_rate params))
        /\ (0 <= n_fpc -> n_fpc / (1 - non_response_rate params) <= 0)).
Proof.
  intros _. split.
  - intros Hr. unfold calculate_sample.
    destruct (next_profile self (survey_type params)) as [profile|e] eqn:E1;
      cbn [bind].
    2:{ exists e. split; [reflexivity|].
        rewrite (next_profile_exn _ _ _ E1). discriminate. }
    destruct (_calculate_base_sample self params) as [n0|e] eqn:E2;
      cbn [bind].
    2:{ exists e. split; [reflexivity|].
        destruct (base_sample_exn _ _ _ E2) as [-> | ->]; discriminate. }
    destruct (_apply_fpc _ (population_size params)) as [n_fpc|e] eqn:E3;
      cbn [bind].
    2:{ exists e. split; [reflexivity|].
        rewrite (apply_fpc_exn _ _ _ E3). discriminate. }
    exists ZeroDivisionError. split; [|discriminate].
    unfold non_response_inflation. rewrite py_div_zero; [reflexivity|].
    rewrite Hr. reflexivity.
  - intros Hr n_fpc. split.
    + unfold non_response_inflation. apply py_div_nonzero. lra.
    + intros Hn.
      assert (E : n_fpc / (1 - non_response_rate params)
                  == - (n_fpc / (non_response_rate params - 1)))
        by (field; split; lra).
      rewrite E.
      assert (0 <= n_fpc / (non_response_rate params - 1))
        by (apply Qle_shift_div_l; lra).
      lra.
Qed.

Lemma non_response_rate_of_one_or_more_witness :
  (exists e,
      calculate_sample table_solver default_calculator
        scenario_none_respond = Raise e
      /\ e <> SolverError)
  /\ (non_response_inflation 1581 2 = Ok (1581 / (1 - 2))
      /\ 1581 / (1 - 2) <= 0).
Proof.
  split.
  - eapply (non_response_rate_of_one_or_more table_solver default_calculator
              scenario_none_respond).
    + simpl. lra.
    + simpl. lra.
  - destruct (non_response_rate_of_one_or_more table_solver default_calculator
                scenario_all_refuse_twice) as [_ H].
    + simpl. lra.
    + destruct (H ltac:(simpl; lra) 1581) as [H1 H2].
      split; [exact H1 | apply H2; lra].
Defined.

(** C2, as stated, fails: with a non-response rate of 2 the calculation
    raises nothing and returns a result, with a negative final sample
    size. *)
Lemma non_response_rate_two_returns :
  1 <= non_response_rate scenario_all_refuse_twice
  /\ exists r,
       calculate_sample table_solver default_calculator
         scenario_all_refuse_twice = Ok r
       /\ final_sample_size r = (-1580)%Z.
Proof.
  split; [simpl; lra|].
  eexists. split; vm_compute; reflexivity.
Qed.

(** ** Power analysis *)

Lemma calculate_sample_power (solver : Q -> Q -> Q -> result Q)
    (self : ESSSampleSizeCalculator) (params : SurveyParameters)
    (res : SampleSizeResult) :
  calculate_sample solver self params = Ok res ->
  exists power_sample,
    power_analysis solver params = Ok power_sample
    /\ power_sample_size res = ceil_power power_sample.
Proof.
  unfold calculate_sample. intros H.
  apply bind_Ok in H as (profile & _ & H).
  apply bind_Ok in H as (n0 & _ & H).
  apply bind_Ok in H as (n_fpc & _ & H).
  apply bind_Ok in H as (final_n & _ & H).
  apply bind_Ok in H as (power_sample & Hp & H).
  injection H as <-. exists power_sample. split; [exact Hp | reflexivity].
Qed.

(** C3, as the code behaves: [alpha] and [power] always have a value, and
    a returned result carries a power-based size [n] exactly when an
    effect size is given and is not zero, the solver answers a value that
    is not zero, and [n] is the ceiling of that value. *)
Theorem power_sample_size_computed (solver : Q -> Q -> Q -> result Q)
    (self : ESSSampleSizeCalculator) (params : SurveyParameters)
    (res : SampleSizeResult) :
  calculate_sample solver self params = Ok res ->
  forall n : Z,
    power_sample_size res = Some n <->
    exists d v,
      effect_size params = Some d /\ ~ d == 0
      /\ solver d (alpha params) (power params) = Ok v /\ ~ v == 0
      /\ n = ceil v.
Proof.
  intros H n.
  destruct (calculate_sample_power _ _ _ _ H) as (ps & Hps & ->).
  unfold power_analysis, calculate_power in Hps.
  destruct (effect_size params) as [d|].
  - destruct (truthy d) eqn:Ed.
    + destruct (solver d (alpha params) (power params)) as [v|e] eqn:Ev;
        cbn [bind] in Hps; [|discriminate].
      injection Hps as <-. cbn [ceil_power].
      destruct (truthy v) eqn:Etv.
      * split.
        -- intros [= <-]. exists d, v.
           apply truthy_true in Ed, Etv. auto.
        -- intros (d' & v' & [= <-] & _ & Hv' & _ & ->).
           rewrite Ev in Hv'. injection Hv' as <-. reflexivity.
      * split; [discriminate|].
        intros (d' & v' & [= <-] & _ & Hv' & Hnz & _).
        rewrite Ev in Hv'. injection Hv' as <-.
        apply truthy_false in Etv. contradiction.
    + injection Hps as <-. cbn [ceil_power]. split; [discriminate|].
      intros (d' & v' & [= <-] & Hnz & _).
      apply truthy_false in Ed. contradiction.
  - injection Hps as <-. cbn [ceil_power]. split; [discriminate|].
    intros (d' & v' & Hd & _). discriminate.
Qed.

Lemma power_sample_size_computed_witness :
  exists res,
    calculate_sample table_solver default_calculator
      (scenario_with_effect (Some 0.5)) = Ok res
    /\ power_sample_size res = Some 64%Z
    /\ forall n : Z,
         power_sample_size res = Some n <->
         exists d v,
           Some 0.5 = Some d /\ ~ d == 0
           /\ table_solver d 0.05 0.8 = Ok v /\ ~ v == 0
           /\ n = ceil v.
Proof.
  eexists. split; [vm_compute; reflexivity|]. split; [reflexivity|].
  apply (power_sample_size_computed table_solver default_calculator
           (scenario_with_effect (Some 0.5))).
  vm_compute. reflexivity.
Defined.

(** C3, as stated, fails: with the three of effect size, alpha and power
    given and an effect size of zero the result has no power-based size;
    and with alpha and power given but no effect size the calculation
    raises nothing and returns a result. *)
Lemma power_triple_not_checked :
  (exists r,
      calculate_sample table_solver default_calculator
        (scenario_with_effect (Some 0)) = Ok r
      /\ power_sample_size r = None)
  /\ (exists r,
        calculate_sample table_solver default_calculator
          (scenario_with_effect None) = Ok r
        /\ alpha (scenario_with_effect None) == 0.05
        /\ power (scenario_with_effect None) == 0.8).
Proof.
  split.
  - eexists. split; vm_compute; reflexivity.
  - eexists. split; [vm_compute; reflexivity|]. split; reflexivity.
Qed.

(** * More properties of the calculator *)

(** ** Finite population correction: helper facts *)

Lemma inject_Z_ge_one (N : Z) : (1 <= N)%Z -> 1 <= inject_Z N.
Proof. intros HN. unfold Qle. simpl. lia. Qed.

Lemma fpc_denominator_pos (n m : Q) :
  0 < n -> 1 <= m -> 0 < 1 + (n - 1) / m.
Proof.
  intros Hn Hm. rewrite fpc_denominator by lra.
  apply Qlt_shift_div_l; lra.
Qed.

Lemma fraction_le (a b c d : Q) :
  0 < b -> 0 < d -> a * d <= c * b -> a / b <= c / d.
Proof.
  intros Hb Hd H.
  apply Qle_shift_div_r; [exact Hb|].
  assert (E : c / d * b == c * b / d) by (field; lra).
  rewrite E. apply Qle_shift_div_l; [exact Hd | exact H].
Qed.

Lemma apply_fpc_positive (n : Q) (N : Z) :
  0 < n -> (1 <= N)%Z ->
  _apply_fpc n N = Ok (n / (1 + (n - 1) / inject_Z N)).
Proof.
  intros Hn HN.
  pose proof (fpc_denominator_pos n _ Hn (inject_Z_ge_one N HN)).
  apply apply_fpc_value; [lia | lra].
Qed.

Lemma fpc_value_pos (n m : Q) :
  0 < n -> 1 <= m -> 0 < n / (1 + (n - 1) / m).
Proof.
  intros Hn Hm. pose proof (fpc_denominator_pos n m Hn Hm) as Hd.
  apply Qlt_shift_div_l; [exact Hd | lra].
Qed.

(** ** Design effect and base sample size: order properties *)

Lemma inject_Z_nonneg (z : Z) : (0 <= z)%Z -> 0 <= inject_Z z.
Proof. intros Hz. unfold Qle. simpl. lia. Qed.

(** For a cluster size of at least one and a non-negative ICC the design
    effect is at least 1, and it does not decrease when the cluster size
    or the ICC grows. *)
Theorem calculate_deff_monotone (b1 b2 : Z) (rho1 rho2 : Q) :
  (1 <= b1)%Z -> (b1 <= b2)%Z -> 0 <= rho1 -> rho1 <= rho2 ->
  1 <= calculate_deff b1 rho1
  /\ calculate_deff b1 rho1 <= calculate_deff b2 rho1
  /\ calculate_deff b1 rho1 <= calculate_deff b1 rho2.
Proof.
  intros Hb1 Hb12 Hr1 Hr12. unfold calculate_deff.
  pose proof (inject_Z_nonneg (b1 - 1) ltac:(lia)) as H1.
  assert (H12 : inject_Z (b1 - 1) <= inject_Z (b2 - 1))
    by (rewrite <- Zle_Qle; lia).
  split; [|split].
  - assert (0 <= inject_Z (b1 - 1) * rho1)
      by (apply Qmult_le_0_compat; assumption).
    lra.
  - assert (inject_Z (b1 - 1) * rho1 <= inject_Z (b2 - 1) * rho1)
      by (apply Qmult_le_compat_r; assumption).
    lra.
  - assert (inject_Z (b1 - 1) * rho1 <= inject_Z (b1 - 1) * rho2)
      by (rewrite !(Qmult_comm (inject_Z (b1 - 1)));
          apply Qmult_le_compat_r; assumption).
    lra.
Qed.

Lemma calculate_deff_monotone_witness :
  1 <= calculate_deff 5 0.01
  /\ calculate_deff 5 0.01 <= calculate_deff 50 0.01
  /\ calculate_deff 5 0.01 <= calculate_deff 5 0.5.
Proof.
  apply calculate_deff_monotone; [lia | lia | lra | lra].
Defined.

Lemma base_sample_init (assets : option (list SurveyProfile))
    (params : SurveyParameters) (c : Z) (z : Q) :
  confidence_levels (init assets) !! c = Some z ->
  confidence_level params = c ->
  ~ margin_error params == 0 ->
  _calculate_base_sample (init assets) params =
    Ok (z * z * expected_prevalence params
        * (1 - expected_prevalence params)
        / (margin_error params * margin_error params)).
Proof.
  intros Hz <- He. apply base_sample_value; assumption.
Qed.

(** For a prevalence in (0,1) and a margin of error from [1e-150] to 1,
    the base sample size is computed at the three confidence levels and
    does not decrease with the level: the one at 90 is at most the one at
    95, which is at most the one at 99. *)
Theorem base_sample_ordered_by_confidence
    (assets : option (list SurveyProfile)) (params : SurveyParameters) :
  0 < expected_prevalence params < 1 ->
  margin_floor <= margin_error params <= 1 ->
  exists n90 n95 n99,
    _calculate_base_sample (init assets) (with_confidence_level params 90)
      = Ok n90
    /\ _calculate_base_sample (init assets) (with_confidence_level params 95)
       = Ok n95
    /\ _calculate_base_sample (init assets) (with_confidence_level params 99)
       = Ok n99
    /\ n90 <= n95
    /\ n95 <= n99.
Proof.
  intros [Hp0 Hp1] [Hfloor _].
  assert (He : ~ margin_error params == 0)
    by (unfold margin_floor in Hfloor; lra).
  set (e := margin_error params) in *.
  set (p := expected_prevalence params) in *.
  assert (He2 : 0 < e * e) by nra.
  assert (Hpq : 0 < p * (1 - p)) by nra.
  eexists _, _, _.
  split; [exact (base_sample_init assets (with_confidence_level params 90)
                   90 1.645 (confidence_levels_init assets 90) eq_refl He)|].
  split; [exact (base_sample_init assets (with_confidence_level params 95)
                   95 1.96 (confidence_levels_init assets 95) eq_refl He)|].
  split; [exact (base_sample_init assets (with_confidence_level params 99)
                   99 2.576 (confidence_levels_init assets 99) eq_refl He)|].
  cbn [expected_prevalence margin_error with_confidence_level]. fold e p.
  assert (Hinv : 0 < / (e * e)) by (apply Qinv_lt_0_compat, He2).
  assert (Hc : 0 < p * (1 - p) * / (e * e))
    by (apply Qmult_lt_0_compat; assumption).
  set (c := p * (1 - p) * / (e * e)) in *.
  assert (E : forall z, z * z * p * (1 - p) / (e * e) == (z * z) * c)
    by (intros z; unfold c; field; lra).
  rewrite !E. split.
  - apply Qlt_le_weak, Qmult_lt_compat_r; [exact Hc | reflexivity].
  - apply Qlt_le_weak, Qmult_lt_compat_r; [exact Hc | reflexivity].
Qed.

Lemma base_sample_ordered_by_confidence_witness :
  exists n90 n95 n99,
    _calculate_base_sample (init None) (with_confidence_level scenario 90)
      = Ok n90
    /\ _calculate_base_sample (init None) (with_confidence_level scenario 95)
       = Ok n95
    /\ _calculate_base_sample (init None) (with_confidence_level scenario 99)
       = Ok n99
    /\ n90 <= n95
    /\ n95 <= n99.
Proof.
  apply base_sample_ordered_by_confidence.
  - simpl. split; lra.
  - simpl. unfold margin_floor. split; lra.
Defined.

(** With a margin of error of zero, a known survey type and a confidence
    level among 90, 95 and 99, the calculation raises
    [ZeroDivisionError], from the base sample size. *)
Theorem zero_margin_raises (solver : Q -> Q -> Q -> result Q)
    (assets : option (list SurveyProfile)) (params : SurveyParameters) :
  survey_type params ∈ profile_id <$> survey_profiles (init assets) ->
  confidence_level params ∈ [90%Z; 95%Z; 99%Z] ->
  margin_error params == 0 ->
  calculate_sample solver (init assets) params = Raise ZeroDivisionError.
Proof.
  intros Hty Hc He.
  destruct (next_profile_known _ _ Hty) as (profile & Hp & _).
  destruct (confidence_levels_known assets _ Hc) as (z & Hz & _).
  unfold calculate_sample. rewrite Hp. cbn [bind].
  unfold _calculate_base_sample. rewrite Hz. cbn [bind].
  rewrite py_div_zero; [reflexivity|]. rewrite He. reflexivity.
Qed.

Lemma zero_margin_raises_witness :
  calculate_sample table_solver (init None) (with_margin_error scenario 0)
  = Raise ZeroDivisionError.
Proof.
  apply zero_margin_raises.
  - apply (bool_decide_unpack _). vm_compute. exact I.
  - apply (bool_decide_unpack _). vm_compute. exact I.
  - simpl. reflexivity.
Defined.

(** ** The whole calculation *)

(** The result [calculate_sample] assembles from the values of its
    steps. *)
Lemma calculate_sample_steps (solver : Q -> Q -> Q -> result Q)
    (self : ESSSampleSizeCalculator) (params : SurveyParameters)
    (profile : SurveyProfile) (n0 n_fpc final_n : Q) (ps : option Q) :
  next_profile self (survey_type params) = Ok profile ->
  _calculate_base_sample self params = Ok n0 ->
  _apply_fpc
    (n0 * calculate_deff
            (or_default_int (avg_cluster_size params)
                            (default_cluster_size profile))
            (or_default (icc params) (default_icc profile)))
    (population_size params) = Ok n_fpc ->
  non_response_inflation n_fpc (non_response_rate params) = Ok final_n ->
  power_analysis solver params = Ok ps ->
  calculate_sample solver self params =
    Ok {| base_sample_size := ceil n0;
          design_effect :=
            round3 (calculate_deff
                      (or_default_int (avg_cluster_size params)
                                      (default_cluster_size profile))
                      (or_default (icc params) (default_icc profile)));
          icc_used := round3 (or_default (icc params) (default_icc profile));
          cluster_size :=
            or_default_int (avg_cluster_size params)
                           (default_cluster_size profile);
          adjusted_sample_size :=
            ceil (n0 * calculate_deff
                         (or_default_int (avg_cluster_size params)
                                         (default_cluster_size profile))
                         (or_default (icc params) (default_icc profile)));
          final_sample_size := ceil final_n;
          power_sample_size := ceil_power ps;
          effective_sample_size := ceil n0 |}.
Proof.
  intros H1 H2 H3 H4 H5. unfold calculate_sample.
  rewrite H1. cbn [bind]. rewrite H2. cbn [bind].
  rewrite H3. cbn [bind]. rewrite H4. cbn [bind].
  rewrite H5. reflexivity.
Qed.

Lemma calculate_sample_inv (solver : Q -> Q -> Q -> result Q)
    (self : ESSSampleSizeCalculator) (params : SurveyParameters)
    (res : SampleSizeResult) :
  calculate_sample solver self params = Ok res ->
  exists profile n0 n_fpc final_n ps,
    next_profile self (survey_type params) = Ok profile
    /\ _calculate_base_sample self params = Ok n0
    /\ _apply_fpc
         (n0 * calculate_deff
                 (or_default_int (avg_cluster_size params)
                                 (default_cluster_size profile))
                 (or_default (icc params) (default_icc profile)))
         (population_size params) = Ok n_fpc
    /\ non_response_inflation n_fpc (non_response_rate params) = Ok final_n
    /\ power_analysis solver params = Ok ps
    /\ calculate_sample solver self params = Ok res
    /\ base_sample_size res = ceil n0
    /\ design_effect res =
         round3 (calculate_deff
                   (or_default_int (avg_cluster_size params)
                                   (default_cluster_size profile))
                   (or_default (icc params) (default_icc profile)))
    /\ icc_used res = round3 (or_default (icc params) (default_icc profile))
    /\ cluster_size res =
         or_default_int (avg_cluster_size params)
                        (default_cluster_size profile)
    /\ adjusted_sample_size res =
         ceil (n0 * calculate_deff
                      (or_default_int (avg_cluster_size params)
                                      (default_cluster_size profile))
                      (or_default (icc params) (default_icc profile)))
    /\ final_sample_size res = ceil final_n
    /\ power_sample_size res = ceil_power ps
    /\ effective_sample_size res = ceil n0.
Proof.
  intros H. pose proof H as H'. unfold calculate_sample in H.
  apply bind_Ok in H as (profile & H1 & H).
  apply bind_Ok in H as (n0 & H2 & H).
  apply bind_Ok in H as (n_fpc & H3 & H).
  apply bind_Ok in H as (final_n & H4 & H).
  apply bind_Ok in H as (ps & H5 & H).
  injection H as <-.
  exists profile, n0, n_fpc, final_n, ps. cbn.
  repeat (split; [assumption || reflexivity|]). reflexivity.
Qed.

Lemma ceil_pos (q : Q) : 0 < q -> (1 <= ceil q)%Z.
Proof.
  intros Hq. unfold ceil.
  pose proof (Qle_ceiling q) as H.
  assert (Hc : 0 < inject_Z (Qceiling q)) by lra.
  unfold Qlt in Hc. simpl in Hc. lia.
Qed.

Lemma ceil_le (q q' : Q) : q <= q' -> (ceil q <= ceil q')%Z.
Proof. apply Qceiling_resp_le. Qed.

Lemma ceil_eq (q q' : Q) : q == q' -> ceil q = ceil q'.
Proof. apply Qceiling_comp. Qed.

(** The values of the steps for parameters in their ranges. *)
Lemma calculate_sample_in_range (solver : Q -> Q -> Q -> result Q)
    (self : ESSSampleSizeCalculator) (params : SurveyParameters)
    (profile : SurveyProfile) (z : Q) (ps : option Q) :
  next_profile self (survey_type params) = Ok profile ->
  confidence_levels self !! confidence_level params = Some z ->
  0 < z ->
  ~ margin_error params == 0 ->
  0 < expected_prevalence params < 1 ->
  (1 <= population_size params)%Z ->
  non_response_rate params < 1 ->
  0 <= or_default (icc params) (default_icc profile) ->
  (1 <= or_default_int (avg_cluster_size params)
                       (default_cluster_size profile))%Z ->
  power_analysis solver params = Ok ps ->
  exists n0 deff,
    n0 = z * z * expected_prevalence params
         * (1 - expected_prevalence params)
         / (margin_error params * margin_error params)
    /\ deff = calculate_deff
                (or_default_int (avg_cluster_size params)
                                (default_cluster_size profile))
                (or_default (icc params) (default_icc profile))
    /\ 0 < n0 /\ 1 <= deff
    /\ calculate_sample solver self params =
         Ok {| base_sample_size := ceil n0;
               design_effect := round3 deff;
               icc_used :=
                 round3 (or_default (icc params) (default_icc profile));
               cluster_size :=
                 or_default_int (avg_cluster_size params)
                                (default_cluster_size profile);
               adjusted_sample_size := ceil (n0 * deff);
               final_sample_size :=
                 ceil (n0 * deff
                       / (1 + (n0 * deff - 1)
                              / inject_Z (population_size params))
                       / (1 - non_response_rate params));
               power_sample_size := ceil_power ps;
               effective_sample_size := ceil n0 |}.
Proof.
  intros Hprofile Hz Hzpos He [Hp0 Hp1] HN Hr Hicc Hb Hps.
  eexists _, _. split; [reflexivity|]. split; [reflexivity|].
  set (e := margin_error params) in *.
  set (p := expected_prevalence params) in *.
  assert (He2 : 0 < e * e) by nra.
  assert (Hn0 : 0 < z * z * p * (1 - p) / (e * e)).
  { apply Qlt_shift_div_l; [exact He2|].
    assert (0 < z * z) by (apply Qmult_lt_0_compat; assumption).
    assert (0 < p * (1 - p)) by (apply Qmult_lt_0_compat; lra).
    assert (E : z * z * p * (1 - p) == (z * z) * (p * (1 - p))) by ring.
    rewrite E.
    assert (0 < (z * z) * (p * (1 - p)))
      by (apply Qmult_lt_0_compat; assumption).
    lra. }
  assert (Hdeff : 1 <= calculate_deff
                         (or_default_int (avg_cluster_size params)
                                         (default_cluster_size profile))
                         (or_default (icc params) (default_icc profile))).
  { unfold calculate_deff.
    assert (0 <= inject_Z (or_default_int (avg_cluster_size params)
                             (default_cluster_size profile) - 1))
      by (apply inject_Z_nonneg; lia).
    assert (0 <= inject_Z (or_default_int (avg_cluster_size params)
                             (default_cluster_size profile) - 1)
                 * or_default (icc params) (default_icc profile))
      by (apply Qmult_le_0_compat; assumption).
    lra. }
  split; [exact Hn0|]. split; [exact Hdeff|].
  set (n0 := z * z * p * (1 - p) / (e * e)) in *.
  set (deff := calculate_deff _ _) in *.
  assert (Hnd : 0 < n0 * deff) by (apply Qmult_lt_0_compat; lra).
  apply (calculate_sample_steps solver self params profile n0
           (n0 * deff / (1 + (n0 * deff - 1)
                             / inject_Z (population_size params)))
           _ ps Hprofile).
  - apply base_sample_value; assumption.
  - apply apply_fpc_positive; assumption.
  - apply non_response_inflation_below_one, Hr.
  - exact Hps.
Qed.

Lemma div_le_compat (a b c : Q) : 0 < c -> a <= b -> a / c <= b / c.
Proof.
  intros Hc Hab. unfold Qdiv. apply Qmult_le_compat_r; [exact Hab|].
  apply Qinv_le_0_compat. lra.
Qed.

Lemma quotient_antitone (k e1 e2 : Q) :
  0 <= k -> 0 < e1 -> e1 <= e2 -> k / (e2 * e2) <= k / (e1 * e1).
Proof.
  intros Hk He1 He12.
  assert (H1 : 0 < e1 * e1) by (apply Qmult_lt_0_compat; lra).
  assert (H2 : 0 < e2 * e2) by (apply Qmult_lt_0_compat; lra).
  apply fraction_le; [exact H2 | exact H1 |].
  assert (He : e1 * e1 <= e2 * e2).
  { apply Qle_trans with (e1 * e2).
    - apply Qmult_le_l; lra.
    - apply Qmult_le_compat_r; lra. }
  assert (H : 0 <= k * (e2 * e2 - e1 * e1))
    by (apply Qmult_le_0_compat; lra).
  lra.
Qed.

Lemma square_nonneg (z : Q) : 0 <= z * z.
Proof.
  destruct (Qlt_le_dec z 0).
  - assert (E : z * z == (- z) * (- z)) by ring.
    rewrite E. apply Qmult_le_0_compat; lra.
  - apply Qmult_le_0_compat; lra.
Qed.

(** For a prevalence in [0,1], a resolved ICC that is not negative and a
    resolved cluster size of at least one: when the calculation returns a
    result for each of two margins [0 < e1 <= e2], all other parameters
    equal, the base and the adjusted sample size for [e2] are at most
    those for [e1]. *)
Theorem base_and_adjusted_decrease_with_margin
    (solver : Q -> Q -> Q -> result Q) (self : ESSSampleSizeCalculator)
    (params : SurveyParameters) (profile : SurveyProfile) (e1 e2 : Q)
    (res1 res2 : SampleSizeResult) :
  next_profile self (survey_type params) = Ok profile ->
  0 < e1 -> e1 <= e2 ->
  0 <= expected_prevalence params <= 1 ->
  0 <= or_default (icc params) (default_icc profile) ->
  (1 <= or_default_int (avg_cluster_size params)
                       (default_cluster_size profile))%Z ->
  calculate_sample solver self (with_margin_error params e1) = Ok res1 ->
  calculate_sample solver self (with_margin_error params e2) = Ok res2 ->
  (base_sample_size res2 <= base_sample_size res1)%Z
  /\ (adjusted_sample_size res2 <= adjusted_sample_size res1)%Z.
Proof.
  intros Hprofile He1 He12 [Hp0 Hp1] Hicc Hb H1 H2.
  destruct (calculate_sample_inv _ _ _ _ H1)
    as (profile1 & n1 & nf1 & fn1 & ps1 & Hpr1 & Hn1 & _ & _ & _ & _
        & Hbase1 & _ & _ & _ & Hadj1 & _).
  destruct (calculate_sample_inv _ _ _ _ H2)
    as (profile2 & n2 & nf2 & fn2 & ps2 & Hpr2 & Hn2 & _ & _ & _ & _
        & Hbase2 & _ & _ & _ & Hadj2 & _).
  cbn [with_margin_error survey_type avg_cluster_size icc]
    in Hpr1, Hpr2, Hadj1, Hadj2.
  rewrite Hprofile in Hpr1, Hpr2.
  injection Hpr1 as <-. injection Hpr2 as <-.
  unfold _calculate_base_sample in Hn1, Hn2.
  cbn [with_margin_error confidence_level expected_prevalence margin_error]
    in Hn1, Hn2.
  destruct (confidence_levels self !! confidence_level params) as [z|];
    cbn [bind] in Hn1, Hn2; [|discriminate].
  apply py_div_inv in Hn1 as [_ ->]. apply py_div_inv in Hn2 as [_ ->].
  set (p := expected_prevalence params) in *.
  assert (Hk : 0 <= z * z * p * (1 - p)).
  { assert (E : z * z * p * (1 - p) == (z * z) * (p * (1 - p))) by ring.
    rewrite E. apply Qmult_le_0_compat; [apply square_nonneg|].
    apply Qmult_le_0_compat; lra. }
  pose proof (quotient_antitone _ e1 e2 Hk He1 He12) as Hn.
  assert (Hdeff : 0 <= calculate_deff
                         (or_default_int (avg_cluster_size params)
                                         (default_cluster_size profile))
                         (or_default (icc params) (default_icc profile))).
  { unfold calculate_deff.
    assert (0 <= inject_Z (or_default_int (avg_cluster_size params)
                             (default_cluster_size profile) - 1))
      by (apply inject_Z_nonneg; lia).
    assert (0 <= inject_Z (or_default_int (avg_cluster_size params)
                             (default_cluster_size profile) - 1)
                 * or_default (icc params) (default_icc profile))
      by (apply Qmult_le_0_compat; assumption).
    lra. }
  rewrite Hbase1, Hbase2, Hadj1, Hadj2. split.
  - apply ceil_le, Hn.
  - apply ceil_le, Qmult_le_compat_r; assumption.
Qed.

Lemma base_and_adjusted_decrease_with_margin_witness :
  exists res1 res2,
    calculate_sample table_solver default_calculator
      (with_margin_error scenario 0.05) = Ok res1
    /\ calculate_sample table_solver default_calculator
         (with_margin_error scenario 0.1) = Ok res2
    /\ (base_sample_size res2 <= base_sample_size res1)%Z
    /\ (adjusted_sample_size res2 <= adjusted_sample_size res1)%Z.
Proof.
  eexists _, _. split; [vm_compute; reflexivity|].
  split; [vm_compute; reflexivity|].
  apply (base_and_adjusted_decrease_with_margin table_solver
           default_calculator scenario
           {| profile_id := "annual_agri";
              name := "Annual Agriculture Survey";
              default_icc := 0.15;
              default_cluster_size := 25;
              description := "Crop area and production estimates" |}
           0.05 0.1).
  - vm_compute. reflexivity.
  - lra.
  - lra.
  - simpl. split; lra.
  - vm_compute. discriminate.
  - vm_compute. discriminate.
  - vm_compute. reflexivity.
  - vm_compute. reflexivity.
Defined.

(** ** Resolution of the ICC and of the cluster size *)

Lemma or_default_same (d : Q) : or_default (Some d) d = d.
Proof. unfold or_default. destruct (truthy d); reflexivity. Qed.

Lemma or_default_int_same (d : Z) : or_default_int d d = d.
Proof. unfold or_default_int. destruct (truthy_int d); reflexivity. Qed.

Lemma calculate_sample_resolved (solver : Q -> Q -> Q -> result Q)
    (self : ESSSampleSizeCalculator) (params params' : SurveyParameters)
    (profile : SurveyProfile) :
  next_profile self (survey_type params) = Ok profile ->
  survey_type params' = survey_type params ->
  population_size params' = population_size params ->
  confidence_level params' = confidence_level params ->
  margin_error params' = margin_error params ->
  expected_prevalence params' = expected_prevalence params ->
  non_response_rate params' = non_response_rate params ->
  effect_size params' = effect_size params ->
  alpha params' = alpha params ->
  power params' = power params ->
  or_default (icc params') (default_icc profile)
    = or_default (icc params) (default_icc profile) ->
  or_default_int (avg_cluster_size params') (default_cluster_size profile)
    = or_default_int (avg_cluster_size params) (default_cluster_size profile) ->
  calculate_sample solver self params' = calculate_sample solver self params.
Proof.
  intros Hp Hty HN Hc He Hpr Hr Hd Ha Hpw Hicc Hb.
  unfold calculate_sample, _calculate_base_sample, power_analysis.
  rewrite Hty, Hp. cbn [bind].
  rewrite HN, Hc, He, Hpr, Hr, Hd, Ha, Hpw, Hicc, Hb. reflexivity.
Qed.

(** For a known survey type, leaving the ICC out gives the same outcome
    as passing the default ICC of the profile, and so does passing an ICC
    of zero. *)
Theorem omitted_icc_is_profile_default (solver : Q -> Q -> Q -> result Q)
    (self : ESSSampleSizeCalculator) (params : SurveyParameters)
    (profile : SurveyProfile) (q : Q) :
  next_profile self (survey_type params) = Ok profile ->
  q == 0 ->
  calculate_sample solver self (with_icc params None)
    = calculate_sample solver self
        (with_icc params (Some (default_icc profile)))
  /\ calculate_sample solver self (with_icc params (Some q))
     = calculate_sample solver self (with_icc params None).
Proof.
  intros Hp Hq. split.
  - apply (calculate_sample_resolved solver self _ _ profile);
      try reflexivity; [exact Hp|].
    cbn [icc with_icc]. rewrite or_default_same. reflexivity.
  - apply (calculate_sample_resolved solver self _ _ profile);
      try reflexivity; [exact Hp|].
    cbn [icc with_icc]. rewrite (or_default_zero q _ Hq). reflexivity.
Qed.

Lemma omitted_icc_is_profile_default_witness :
  calculate_sample table_solver default_calculator (with_icc scenario None)
    = calculate_sample table_solver default_calculator
        (with_icc scenario (Some 0.15))
  /\ calculate_sample table_solver default_calculator
       (with_icc scenario (Some 0))
     = calculate_sample table_solver default_calculator
         (with_icc scenario None).
Proof.
  apply (omitted_icc_is_profile_default table_solver default_calculator
           scenario
           {| profile_id := "annual_agri";
              name := "Annual Agriculture Survey";
              default_icc := 0.15;
              default_cluster_size := 25;
              description := "Crop area and production estimates" |} 0).
  - vm_compute. reflexivity.
  - reflexivity.
Defined.

(** For a known survey type, a cluster size of zero gives the same
    outcome as passing the default cluster size of the profile. *)
Theorem zero_cluster_size_is_profile_default
    (solver : Q -> Q -> Q -> result Q) (self : ESSSampleSizeCalculator)
    (params : SurveyParameters) (profile : SurveyProfile) :
  next_profile self (survey_type params) = Ok profile ->
  calculate_sample solver self (with_avg_cluster_size params 0)
  = calculate_sample solver self
      (with_avg_cluster_size params (default_cluster_size profile)).
Proof.
  intros Hp.
  apply (calculate_sample_resolved solver self _ _ profile);
    try reflexivity; [exact Hp|].
  cbn [avg_cluster_size with_avg_cluster_size].
  rewrite or_default_int_same. reflexivity.
Qed.

Lemma zero_cluster_size_is_profile_default_witness :
  calculate_sample table_solver default_calculator
    (with_avg_cluster_size scenario 0)
  = calculate_sample table_solver default_calculator
      (with_avg_cluster_size scenario 25).
Proof.
  apply (zero_cluster_size_is_profile_default table_solver
           default_calculator scenario
           {| profile_id := "annual_agri";
              name := "Annual Agriculture Survey";
              default_icc := 0.15;
              default_cluster_size := 25;
              description := "Crop area and production estimates" |}).
  vm_compute. reflexivity.
Defined.

(** With an explicit ICC other than zero and an explicit cluster size
    other than zero, the defaults of the profile are not used: two
    calculators with the same confidence levels that both know the survey
    type give the same outcome, whatever their profiles hold. *)
Theorem explicit_values_ignore_profile (solver : Q -> Q -> Q -> result Q)
    (self1 self2 : ESSSampleSizeCalculator) (params : SurveyParameters)
    (profile1 profile2 : SurveyProfile) (q : Q) :
  next_profile self1 (survey_type params) = Ok profile1 ->
  next_profile self2 (survey_type params) = Ok profile2 ->
  confidence_levels self1 = confidence_levels self2 ->
  icc params = Some q -> ~ q == 0 ->
  avg_cluster_size params <> 0%Z ->
  calculate_sample solver self1 params = calculate_sample solver self2 params.
Proof.
  intros H1 H2 Hlevels Hicc Hq Hb.
  unfold calculate_sample, _calculate_base_sample.
  rewrite H1, H2, Hlevels, Hicc. cbn [bind].
  rewrite !(or_default_nonzero q _ Hq).
  unfold or_default_int, truthy_int.
  destruct (Z.eqb_spec (avg_cluster_size params) 0) as [E|_];
    [contradiction|].
  reflexivity.
Qed.

Lemma explicit_values_ignore_profile_witness :
  calculate_sample table_solver default_calculator scenario
  = calculate_sample table_solver
      (init (Some [ {| profile_id := "annual_agri";
                       name := "Annual Agriculture Survey";
                       default_icc := 0.3;
                       default_cluster_size := 10;
                       description := "" |} ]))
      scenario.
Proof.
  eapply (explicit_values_ignore_profile table_solver default_calculator _
            scenario _ _ 0.15).
  - vm_compute. reflexivity.
  - vm_compute. reflexivity.
  - reflexivity.
  - reflexivity.
  - lra.
  - simpl. lia.
Defined.

Lemma round_half_even_eq (q q' : Q) :
  q == q' -> round_half_even q = round_half_even q'.
Proof.
  intros H. unfold round_half_even.
  rewrite (Qfloor_comp _ _ H).
  assert (E : q - inject_Z (Qfloor q') == q' - inject_Z (Qfloor q'))
    by (rewrite H; reflexivity).
  rewrite (Qcompare_comp _ _ E _ _ (Qeq_refl (1 # 2))). reflexivity.
Qed.

Lemma round3_eq (q q' : Q) : q == q' -> round3 q = round3 q'.
Proof.
  intros H. unfold round3.
  rewrite (round_half_even_eq (q * 1000) (q' * 1000)); [reflexivity|].
  rewrite H. reflexivity.
Qed.

(** When the resolved ICC is zero or the resolved cluster size is one,
    clustering costs nothing: the reported design effect is 1 and the
    adjusted sample size is the base sample size. *)
Theorem no_clustering_penalty (solver : Q -> Q -> Q -> result Q)
    (self : ESSSampleSizeCalculator) (params : SurveyParameters)
    (profile : SurveyProfile) (res : SampleSizeResult) :
  calculate_sample solver self params = Ok res ->
  next_profile self (survey_type params) = Ok profile ->
  or_default (icc params) (default_icc profile) == 0
  \/ or_default_int (avg_cluster_size params) (default_cluster_size profile)
     = 1%Z ->
  design_effect res == 1
  /\ adjusted_sample_size res = base_sample_size res.
Proof.
  intros Hres Hp Hcase.
  destruct (calculate_sample_inv _ _ _ _ Hres)
    as (profile' & n0 & n_fpc & final_n & ps & Hp' & _ & _ & _ & _ & _
        & Hbase & Hdeff & _ & _ & Hadj & _).
  rewrite Hp in Hp'. injection Hp' as <-.
  assert (Hone : calculate_deff
                   (or_default_int (avg_cluster_size params)
                                   (default_cluster_size profile))
                   (or_default (icc params) (default_icc profile)) == 1).
  { unfold calculate_deff. destruct Hcase as [H0 | H1].
    - rewrite H0. ring.
    - rewrite H1. change (inject_Z (1 - 1)) with 0. ring. }
  split.
  - rewrite Hdeff, (round3_eq _ 1 Hone). reflexivity.
  - rewrite Hadj, Hbase. apply ceil_eq. rewrite Hone. ring.
Qed.

Lemma no_clustering_penalty_witness :
  exists res,
    calculate_sample table_solver default_calculator
      (with_avg_cluster_size scenario 1) = Ok res
    /\ design_effect res == 1
    /\ adjusted_sample_size res = base_sample_size res.
Proof.
  eexists. split; [vm_compute; reflexivity|].
  eapply (no_clustering_penalty table_solver default_calculator
            (with_avg_cluster_size scenario 1)).
  - vm_compute. reflexivity.
  - vm_compute. reflexivity.
  - right. vm_compute. reflexivity.
Defined.

(** With a population size of zero and a non-response rate of zero
    neither the correction nor the inflation changes anything: the final
    sample size is the adjusted sample size. *)
Theorem no_correction_no_inflation (solver : Q -> Q -> Q -> result Q)
    (self : ESSSampleSizeCalculator) (params : SurveyParameters)
    (res : SampleSizeResult) :
  calculate_sample solver self params = Ok res ->
  population_size params = 0%Z ->
  non_response_rate params == 0 ->
  final_sample_size res = adjusted_sample_size res.
Proof.
  intros Hres HN Hr.
  destruct (calculate_sample_inv _ _ _ _ Hres)
    as (profile & n0 & n_fpc & final_n & ps & _ & _ & Hfpc & Hinfl & _ & _
        & _ & _ & _ & _ & Hadj & Hfinal & _).
  rewrite HN, apply_fpc_zero in Hfpc. injection Hfpc as <-.
  apply py_div_inv in Hinfl as [_ ->].
  rewrite Hfinal, Hadj. apply ceil_eq. rewrite Hr. field.
Qed.

Lemma no_correction_no_inflation_witness :
  exists res,
    calculate_sample table_solver default_calculator
      {| survey_type := "annual_agri"; population_size := 0;
         confidence_level := 95; margin_error := 0.05;
         avg_cluster_size := 25; icc := Some 0.15;
         expected_prevalence := 0.5; non_response_rate := 0;
         effect_size := None; alpha := 0.05; power := 0.8 |} = Ok res
    /\ final_sample_size res = adjusted_sample_size res.
Proof.
  match goal with
  | |- exists res, calculate_sample _ _ ?p = _ /\ _ => set (params := p)
  end.
  eexists. split; [vm_compute; reflexivity|].
  apply (no_correction_no_inflation table_solver default_calculator params).
  - vm_compute. reflexivity.
  - reflexivity.
  - reflexivity.
Defined.

(** The power triple does not enter the design-based figures: two
    calculations that differ only in effect size, alpha, power and solver
    and both return a result agree on every field of it but the
    power-based size. *)
Theorem power_inputs_leave_design (solver1 solver2 : Q -> Q -> Q -> result Q)
    (self : ESSSampleSizeCalculator) (params : SurveyParameters)
    (d : option Q) (a p : Q) (res res' : SampleSizeResult) :
  calculate_sample solver1 self params = Ok res ->
  calculate_sample solver2 self (with_power_analysis params d a p)
    = Ok res' ->
  base_sample_size res' = base_sample_size res
  /\ design_effect res' = design_effect res
  /\ icc_used res' = icc_used res
  /\ cluster_size res' = cluster_size res
  /\ adjusted_sample_size res' = adjusted_sample_size res
  /\ final_sample_size res' = final_sample_size res
  /\ effective_sample_size res' = effective_sample_size res.
Proof.
  intros Hres Hres'.
  destruct (calculate_sample_inv _ _ _ _ Hres)
    as (profile & n0 & n_fpc & final_n & ps & Hp & Hn0 & Hfpc & Hinfl & _
        & _ & -> & -> & -> & -> & -> & -> & _ & ->).
  destruct (calculate_sample_inv _ _ _ _ Hres')
    as (profile' & n0' & n_fpc' & final_n' & ps' & Hp' & Hn0' & Hfpc'
        & Hinfl' & _ & _ & -> & -> & -> & -> & -> & -> & _ & ->).
  cbn [with_power_analysis survey_type avg_cluster_size icc population_size
       non_response_rate] in Hp', Hfpc', Hinfl' |- *.
  change (_calculate_base_sample self (with_power_analysis params d a p))
    with (_calculate_base_sample self params) in Hn0'.
  rewrite Hp in Hp'. injection Hp' as <-.
  rewrite Hn0 in Hn0'. injection Hn0' as <-.
  rewrite Hfpc in Hfpc'. injection Hfpc' as <-.
  rewrite Hinfl in Hinfl'. injection Hinfl' as <-.
  repeat split; reflexivity.
Qed.

Lemma power_inputs_leave_design_witness :
  exists res res',
    calculate_sample table_solver default_calculator scenario = Ok res
    /\ calculate_sample table_solver default_calculator
         (with_power_analysis scenario (Some 0.5) 0.05 0.8) = Ok res'
    /\ power_sample_size res = None
    /\ power_sample_size res' = Some 64%Z
    /\ final_sample_size res' = final_sample_size res.
Proof.
  eexists _, _. split; [vm_compute; reflexivity|].
  split; [vm_compute; reflexivity|].
  split; [reflexivity|]. split; [reflexivity|].
  eapply (power_inputs_leave_design table_solver table_solver
            default_calculator scenario (Some 0.5) 0.05 0.8).
  - vm_compute. reflexivity.
  - vm_compute. reflexivity.
Defined.

(** ** The registry: listing and lookup *)

(** The listing keeps the identifiers of the registry in their order, and
    every listed identifier is found by the lookup of the calculation,
    which returns a profile with that identifier. *)
Theorem listed_survey_types_resolve (self : ESSSampleSizeCalculator) :
  (fun t => t.1.1) <$> get_survey_types self
    = profile_id <$> survey_profiles self
  /\ forall t, t ∈ get_survey_types self ->
       exists p, next_profile self t.1.1 = Ok p /\ profile_id p = t.1.1.
Proof.
  unfold get_survey_types. split.
  - rewrite <- list_fmap_compose. reflexivity.
  - intros t Ht. apply list_elem_of_fmap_1 in Ht as (p & -> & Hp). cbn.
    apply next_profile_known. apply list_elem_of_fmap_2, Hp.
Qed.

Lemma listed_survey_types_resolve_witness :
  exists p,
    next_profile default_calculator "annual_agri" = Ok p
    /\ profile_id p = "annual_agri".
Proof.
  destruct (listed_survey_types_resolve default_calculator) as [_ H].
  apply (H ("annual_agri", "Annual Agriculture Survey",
            "Crop area and production estimates")).
  apply (bool_decide_unpack _). vm_compute. exact I.
Defined.

Lemma find_first_match (ty : string) (before after : list SurveyProfile)
    (p : SurveyProfile) :
  profile_id p = ty ->
  ty ∉ profile_id <$> before ->
  List.find (fun p => String.eqb (profile_id p) ty) (before ++ p :: after)
  = Some p.
Proof.
  intros Hp. induction before as [|q before IH]; simpl.
  - intros _. rewrite Hp, String.eqb_refl. reflexivity.
  - rewrite not_elem_of_cons. intros [Hne Hrest].
    destruct (String.eqb_spec (profile_id q) ty) as [E|_]; [congruence|].
    exact (IH Hrest).
Qed.

(** When several profiles share an identifier, the lookup returns the
    first of them in the order of the registry. *)
Theorem first_matching_profile_wins (self : ESSSampleSizeCalculator)
    (before after : list SurveyProfile) (p : SurveyProfile) :
  survey_profiles self = before ++ p :: after ->
  profile_id p ∉ profile_id <$> before ->
  next_profile self (profile_id p) = Ok p.
Proof.
  intros Hreg Hbefore. unfold next_profile.
  rewrite Hreg, (find_first_match _ before after p eq_refl Hbefore).
  reflexivity.
Qed.

Lemma first_matching_profile_wins_witness :
  next_profile
    (init (Some [ {| profile_id := "labour"; name := "Labour Force";
                     default_icc := 0.05; default_cluster_size := 12;
                     description := "" |};
                  {| profile_id := "annual_agri"; name := "First";
                     default_icc := 0.15; default_cluster_size := 25;
                     description := "" |};
                  {| profile_id := "annual_agri"; name := "Second";
                     default_icc := 0.3; default_cluster_size := 10;
                     description := "" |} ]))
    "annual_agri"
  = Ok {| profile_id := "annual_agri"; name := "First";
          default_icc := 0.15; default_cluster_size := 25;
          description := "" |}.
Proof.
  apply (first_matching_profile_wins _
           [ {| profile_id := "labour"; name := "Labour Force";
                default_icc := 0.05; default_cluster_size := 12;
                description := "" |} ]
           [ {| profile_id := "annual_agri"; name := "Second";
                default_icc := 0.3; default_cluster_size := 10;
                description := "" |} ]
           {| profile_id := "annual_agri"; name := "First";
              default_icc := 0.15; default_cluster_size := 25;
              description := "" |}).
  - reflexivity.
  - apply (bool_decide_unpack _). vm_compute. exact I.
Defined.

(** ** The session *)

(** [authenticate_user] marks a fresh session as authenticated, leaves a
    session that already has the key [authenticated] as it is whatever the
    value of the key, touches no key other than [authenticated] and
    [user], and calling it twice is the same as calling it once. *)
Theorem authenticate_user_idempotent (st : gmap string session_value) :
  authenticate_user (authenticate_user st) = authenticate_user st
  /\ (st !! "authenticated" = None ->
      authenticate_user st !! "authenticated" = Some (SBool true)
      /\ authenticate_user st !! "user" = Some (SStr "ess_user"))
  /\ (forall v, st !! "authenticated" = Some v -> authenticate_user st = st)
  /\ (forall k, k <> "authenticated" -> k <> "user" ->
      authenticate_user st !! k = st !! k).
Proof.
  unfold authenticate_user.
  destruct (st !! "authenticated") as [v|] eqn:E.
  - rewrite E. split; [reflexivity|]. split; [discriminate|].
    split; [reflexivity|]. reflexivity.
  - split; [|split; [|split]].
    + rewrite lookup_insert_ne by discriminate.
      rewrite lookup_insert_eq. reflexivity.
    + intros _. split.
      * rewrite lookup_insert_ne by discriminate. apply lookup_insert_eq.
      * apply lookup_insert_eq.
    + discriminate.
    + intros k Hk1 Hk2.
      rewrite !lookup_insert_ne by congruence. reflexivity.
Qed.

Lemma authenticate_user_idempotent_witness :
  authenticate_user
    (authenticate_user {[ "authenticated" := SBool false ]})
  = authenticate_user {[ "authenticated" := SBool false ]}
  /\ authenticate_user {[ "authenticated" := SBool false ]}
     = {[ "authenticated" := SBool false ]}.
Proof.
  destruct (authenticate_user_idempotent
              ({[ "authenticated" := SBool false ]}
               : gmap string session_value)) as (H1 & _ & H3 & _).
  split; [exact H1|].
  apply (H3 (SBool false)). apply lookup_singleton_eq.
Defined.

(** ** The dashboard *)

Lemma or_default_int_nonzero (x d : Z) : x <> 0%Z -> or_default_int x d = x.
Proof.
  intros Hx. unfold or_default_int, truthy_int.
  destruct (Z.eqb_spec x 0); [contradiction | reflexivity].
Qed.

Lemma percent_pos (z : Z) : (1 <= z)%Z -> 0 < inject_Z z / 100.
Proof.
  intros Hz. pose proof (inject_Z_ge_one z Hz).
  apply Qlt_shift_div_l; lra.
Qed.

Lemma percent_range (z : Z) :
  (0 <= z <= 30)%Z -> 0 <= inject_Z z / 100 < 1.
Proof.
  intros [H0 H30]. pose proof (inject_Z_nonneg z H0) as Hq0.
  assert (Hq30 : inject_Z z <= 30) by (unfold Qle; simpl; lia).
  split.
  - apply Qle_shift_div_l; lra.
  - apply Qlt_shift_div_r; lra.
Qed.

(** Every set of values the form of the dashboard can submit (a listed
    survey type, a population of at least 1, a confidence level among 90,
    95 and 99, a margin of 1 to 20 percent, a cluster size of 5 to 50, an
    ICC of 0.01 to 0.5, a non-response of 0 to 30 percent, an effect size
    of 0.1 to 1) gives a result when the solver answers: its final sample
    size is at least one, it reports the ICC and the cluster size of the
    form and not those of the profile, and its power-based size comes from
    the answer of the solver. *)
Theorem form_submission_returns (solver : Q -> Q -> Q -> result Q)
    (assets : option (list SurveyProfile)) (t : string * string * string)
    (pop_size confidence margin_pct cluster : Z) (icc_value : Q)
    (non_response_pct : Z) (effect a p v : Q) :
  t ∈ get_survey_types (init assets) ->
  (1 <= pop_size)%Z ->
  confidence ∈ [90%Z; 95%Z; 99%Z] ->
  (1 <= margin_pct <= 20)%Z ->
  (5 <= cluster <= 50)%Z ->
  0.01 <= icc_value <= 0.5 ->
  (0 <= non_response_pct <= 30)%Z ->
  0.1 <= effect <= 1 ->
  solver effect a p = Ok v ->
  exists res,
    calculate_sample solver (init assets)
      (form_parameters t.1.1 pop_size confidence margin_pct cluster
         icc_value non_response_pct effect a p) = Ok res
    /\ (1 <= final_sample_size res)%Z
    /\ icc_used res = round3 icc_value
    /\ cluster_size res = cluster
    /\ power_sample_size res = ceil_power (Some v).
Proof.
  intros Ht HN Hc Hm Hb Hicc Hnr Heff Hv.
  set (params := form_parameters t.1.1 pop_size confidence margin_pct cluster
                   icc_value non_response_pct effect a p).
  assert (Hty : survey_type params
                ∈ profile_id <$> survey_profiles (init assets)).
  { unfold get_survey_types in Ht.
    apply list_elem_of_fmap_1 in Ht as (q & -> & Hq). cbn.
    apply list_elem_of_fmap_2, Hq. }
  destruct (next_profile_known _ _ Hty) as (profile & Hprofile & _).
  destruct (confidence_levels_known assets _ Hc) as (z & Hz & Hzpos).
  pose proof (percent_pos margin_pct ltac:(lia)) as Hmargin.
  pose proof (percent_range non_response_pct Hnr) as [Hr0 Hr1].
  assert (Hrho : or_default (icc params) (default_icc profile) = icc_value)
    by (apply or_default_nonzero; lra).
  assert (Hsize : or_default_int (avg_cluster_size params)
                    (default_cluster_size profile) = cluster)
    by (apply or_default_int_nonzero; cbn; lia).
  assert (Hps : power_analysis solver params = Ok (Some v)).
  { unfold power_analysis, calculate_power. cbn.
    assert (Htrue : truthy effect = true) by (apply truthy_true; lra).
    rewrite Htrue, Hv. reflexivity. }
  destruct (calculate_sample_in_range solver (init assets) params profile z
              (Some v) Hprofile Hz Hzpos)
    as (n0 & deff & _ & _ & Hn0 & Hdeff & ->).
  - cbn. lra.
  - cbn. split; lra.
  - cbn. exact HN.
  - cbn. exact Hr1.
  - rewrite Hrho. lra.
  - rewrite Hsize. lia.
  - exact Hps.
  - eexists. split; [reflexivity|].
    cbn [final_sample_size icc_used cluster_size power_sample_size].
    split; [|split; [|split]].
    + apply ceil_pos.
      assert (Hnd : 0 < n0 * deff) by (apply Qmult_lt_0_compat; lra).
      pose proof (fpc_value_pos _ _ Hnd (inject_Z_ge_one _ HN)) as Hf.
      cbn in Hr1 |- *. apply Qlt_shift_div_l; lra.
    + rewrite Hrho. reflexivity.
    + exact Hsize.
    + reflexivity.
Qed.

Lemma form_submission_returns_witness :
  exists res,
    calculate_sample table_solver (init None)
      (form_parameters "annual_agri" 15000 95 5 25 0.15 10 0.5 0.05 0.8)
      = Ok res
    /\ (1 <= final_sample_size res)%Z
    /\ icc_used res = round3 0.15
    /\ cluster_size res = 25%Z
    /\ power_sample_size res = ceil_power (Some 63.77).
Proof.
  apply (form_submission_returns table_solver None
           ("annual_agri", "Annual Agriculture Survey",
            "Crop area and production estimates")
           15000 95 5 25 0.15 10 0.5 0.05 0.8 63.77).
  - apply (bool_decide_unpack _). vm_compute. exact I.
  - lia.
  - apply (bool_decide_unpack _). vm_compute. exact I.
  - lia.
  - lia.
  - split; lra.
  - lia.
  - split; lra.
  - vm_compute. reflexivity.
Defined.

Lemma icc_range_lookup (i : nat) (rho : Q) :
  icc_range !! i = Some rho ->
  rho = inject_Z (1 + Z.of_nat i) / 100 /\ (i < 30)%nat.
Proof.
  unfold icc_range. rewrite list_lookup_fmap_Some.
  intros (x & -> & Hx). apply lookup_seqZ in Hx as [-> Hi].
  split; [reflexivity | lia].
Qed.

(** The curve of the design-effect chart has 30 points, one for each ICC
    from 0.01 to 0.30; each point is the design effect the calculator
    computes for the cluster size of the result and that ICC; and for a
    cluster size of at least one no point is below 1 and the curve never
    goes down. *)
Theorem deff_values_curve (results : SampleSizeResult) :
  (1 <= cluster_size results)%Z ->
  length (deff_values results) = 30%nat
  /\ deff_values results = calculate_deff (cluster_size results) <$> icc_range
  /\ forall (i j : nat) (v w : Q),
       (i <= j)%nat ->
       deff_values results !! i = Some v ->
       deff_values results !! j = Some w ->
       1 <= v /\ v <= w.
Proof.
  intros Hb. split; [reflexivity|]. split; [reflexivity|].
  intros i j v w Hij Hv Hw.
  unfold deff_values in Hv, Hw.
  apply list_lookup_fmap_Some in Hv as (rho1 & -> & Hrho1).
  apply list_lookup_fmap_Some in Hw as (rho2 & -> & Hrho2).
  apply icc_range_lookup in Hrho1 as [-> Hi].
  apply icc_range_lookup in Hrho2 as [-> Hj].
  pose proof (inject_Z_nonneg (cluster_size results - 1) ltac:(lia)) as Hk.
  assert (H1 : 0 < inject_Z (1 + Z.of_nat i) / 100)
    by (apply percent_pos; lia).
  assert (H12 : inject_Z (1 + Z.of_nat i) / 100
                <= inject_Z (1 + Z.of_nat j) / 100).
  { apply div_le_compat; [lra|]. rewrite <- Zle_Qle. lia. }
  set (k := inject_Z (cluster_size results - 1)) in *.
  set (x := inject_Z (1 + Z.of_nat i) / 100) in *.
  set (y := inject_Z (1 + Z.of_nat j) / 100) in *.
  assert (Hkx : 0 <= k * x) by (apply Qmult_le_0_compat; lra).
  assert (Hky : 0 <= k * (y - x)) by (apply Qmult_le_0_compat; lra).
  split; lra.
Qed.

Lemma deff_values_curve_witness :
  exists res,
    calculate_sample table_solver default_calculator scenario = Ok res
    /\ length (deff_values res) = 30%nat
    /\ deff_values res !! 0%nat = Some (calculate_deff 25 0.01).
Proof.
  eexists. split; [vm_compute; reflexivity|].
  match goal with
  | |- length (deff_values ?r) = _ /\ _ =>
      destruct (deff_values_curve r) as (Hlen & Heq & _)
  end.
  - simpl. lia.
  - split; [exact Hlen|]. rewrite Heq. reflexivity.
Defined.
